(** * Smart Farming Assistant: session state machine and service adapters

    A shallow embedding of [app.py].  The Streamlit script is re-executed
    from the top for every user action; one execution of [main] is modelled
    as a computation over [st.session_state] that may end normally, by
    [st.rerun()] / [st.stop()], or by an uncaught Python exception.  The
    two external services (chat completions, OpenWeather) are oracles in a
    [world] record, and every request made to them is recorded in a trace
    together with the [st.error] / [st.success] alerts. *)

From Stdlib Require Import String Ascii List ZArith QArith Qround Qabs Lqa Bool Lia.
From Stdlib Require Import Permutation.
Import ListNotations.
Set Warnings "-register-all".
Close Scope Q_scope.
Open Scope Z_scope.
Open Scope string_scope.

(** ** Python [str] operations

    A Python [str] is modelled by the bytes of its UTF-8 encoding.  White
    space is the class of [str.isspace] and [str.split], given through the
    encodings of its members.  The case mapping is the one of the ASCII
    range; the program lower-cases the fixed form labels only. *)
Module PyStr.

(** [c.isspace()] for a character of one byte: TAB, LF, VT, FF, CR, FS, GS,
    RS, US and SPACE. *)
Definition isspace (c : ascii) : bool :=
  let n := nat_of_ascii c in
  ((9 <=? n) && (n <=? 13) || (28 <=? n) && (n <=? 32))%nat.

(** The white space of two bytes: U+0085 and U+00A0. *)
Definition isspace2 (c1 c2 : ascii) : bool :=
  let n1 := nat_of_ascii c1 in
  let n2 := nat_of_ascii c2 in
  ((n1 =? 194) && ((n2 =? 133) || (n2 =? 160)))%nat.

(** The white space of three bytes: U+1680, U+2000 to U+200A, U+2028,
    U+2029, U+202F, U+205F and U+3000. *)
Definition isspace3 (c1 c2 c3 : ascii) : bool :=
  let n1 := nat_of_ascii c1 in
  let n2 := nat_of_ascii c2 in
  let n3 := nat_of_ascii c3 in
  ((n1 =? 225) && (n2 =? 154) && (n3 =? 128)
   || (n1 =? 226) && (n2 =? 128)
      && ((128 <=? n3) && (n3 <=? 138)
          || (n3 =? 168) || (n3 =? 169) || (n3 =? 175))
   || (n1 =? 226) && (n2 =? 129) && (n3 =? 159)
   || (n1 =? 227) && (n2 =? 128) && (n3 =? 128))%nat.

Definition lower_char (c : ascii) : ascii :=
  let n := nat_of_ascii c in
  if ((65 <=? n) && (n <=? 90))%nat then ascii_of_nat (n + 32) else c.

(** [s.lower()] *)
Fixpoint lower (s : string) : string :=
  match s with
  | EmptyString => EmptyString
  | String c s' => String (lower_char c) (lower s')
  end.

(** [bool(s)]: a string is truthy when it is not empty. *)
Definition truthy (s : string) : bool :=
  match s with
  | EmptyString => false
  | String _ _ => true
  end.

(** The token being read, if any, is finished. *)
Definition close (tok : option string) (l : list string) : list string :=
  match tok with
  | Some t => t :: l
  | None => l
  end.

(** One more byte for the token being read. *)
Definition extend (tok : option string) (c : ascii) : option string :=
  match tok with
  | Some t => Some (t ++ String c EmptyString)
  | None => Some (String c EmptyString)
  end.

(** Scanner behind [s.split()]: [tok] is the token being read, if any.  A
    white-space character of one, two or three bytes ends the token; any
    other byte joins it. *)
Fixpoint split_from (tok : option string) (s : string) : list string :=
  match s with
  | EmptyString => close tok []
  | String c1 r1 =>
      if isspace c1 then close tok (split_from None r1)
      else
        match r1 with
        | String c2 r2 =>
            if isspace2 c1 c2 then close tok (split_from None r2)
            else
              match r2 with
              | String c3 r3 =>
                  if isspace3 c1 c2 c3 then close tok (split_from None r3)
                  else split_from (extend tok c1) r1
              | EmptyString => split_from (extend tok c1) r1
              end
        | EmptyString => split_from (extend tok c1) r1
        end
  end.

(** [s.split()]: split on runs of white space, no empty tokens. *)
Definition split (s : string) : list string := split_from None s.

(** [s.strip() == ""]: the string is empty or made of white space only. *)
Fixpoint blank (s : string) : bool :=
  match s with
  | EmptyString => true
  | String c1 r1 =>
      if isspace c1 then blank r1
      else
        match r1 with
        | String c2 r2 =>
            if isspace2 c1 c2 then blank r2
            else
              match r2 with
              | String c3 r3 => isspace3 c1 c2 c3 && blank r3
              | EmptyString => false
              end
        | EmptyString => false
        end
  end.

(** The text of a multi-line literal, given line by line. *)
Definition nl : string := String (ascii_of_nat 10) EmptyString.
Definition unlines (ls : list string) : string := String.concat nl ls.

Fixpoint of_bytes (bs : list nat) : string :=
  match bs with
  | [] => EmptyString
  | b :: bs' => String (ascii_of_nat b) (of_bytes bs')
  end.

(** U+2705, the check mark that opens the success messages. *)
Definition check_mark : string := of_bytes [226; 156; 133]%nat.

End PyStr.

(** ** Python exceptions raised or caught by the program *)
Inductive exn : Type :=
| StopException            (* st.stop() *)
| RerunException           (* st.rerun() *)
| AttributeError (name : string)   (* x.name on an x without it *)
| IndexError
| KeyError
| TypeError
| ValueError
| OverflowError
| ConnectionError          (* requests.get failed *)
| JSONDecodeError          (* response.json() failed *)
| APIError (msg : string). (* the completion client failed *)

(** [isinstance(e, Exception)]: Streamlit's script-control exceptions derive
    from [BaseException] and pass through [except Exception]. *)
Definition is_Exception (e : exn) : bool :=
  match e with
  | StopException | RerunException => false
  | _ => true
  end.

(** [str(e)] *)
Definition exn_str (e : exn) : string :=
  match e with
  | APIError msg => msg
  | IndexError => "list index out of range"
  | _ => ""
  end.

Inductive pyresult (A : Type) : Type :=
| Return (a : A)
| Raise (e : exn).
Arguments Return {A} a.
Arguments Raise {A} e.

(** ** Values produced by [response.json()] *)

(** A Python [float]: a finite value (given by the rational it denotes),
    an infinity or a NaN. *)
Inductive pyfloat : Type :=
| Finite (q : Q)
| Infinity (negative : bool)
| NaN.

Inductive json : Type :=
| JNone
| JBool (b : bool)
| JInt (z : Z)
| JFloat (f : pyfloat)
| JStr (s : string)
| JList (l : list json)
| JDict (d : list (string * json)).

Module PyObj.

(** [bool(v)] *)
Definition truthy (v : json) : bool :=
  match v with
  | JNone => false
  | JBool b => b
  | JInt z => negb (z =? 0)%Z
  | JFloat (Finite q) => negb (Qeq_bool q (0 # 1))
  | JFloat _ => true
  | JStr s => PyStr.truthy s
  | JList l => match l with [] => false | _ :: _ => true end
  | JDict d => match d with [] => false | _ :: _ => true end
  end.

Fixpoint lookup (k : string) (d : list (string * json)) : option json :=
  match d with
  | [] => None
  | (k', v) :: d' => if String.eqb k k' then Some v else lookup k d'
  end.

(** [v[k]] for a string key [k] *)
Definition getitem (v : json) (k : string) : pyresult json :=
  match v with
  | JDict d =>
      match lookup k d with
      | Some x => Return x
      | None => Raise KeyError
      end
  | _ => Raise TypeError
  end.

(** [v[0]] *)
Definition getitem0 (v : json) : pyresult json :=
  match v with
  | JList (x :: _) => Return x
  | JList [] => Raise IndexError
  | JStr (String c _) => Return (JStr (String c EmptyString))
  | JStr EmptyString => Raise IndexError
  | JDict _ => Raise KeyError
  | _ => Raise TypeError
  end.

(** Round half to even, the rule of [float.__round__]. *)
Definition round_half_even (q : Q) : Z :=
  let f := Qfloor q in
  match Qcompare (q - inject_Z f)%Q (1 # 2) with
  | Lt => f
  | Gt => f + 1
  | Eq => if Z.even f then f else f + 1
  end.

(** [round(v)] *)
Definition round (v : json) : pyresult Z :=
  match v with
  | JInt z => Return z
  | JBool b => Return (if b then 1 else 0)
  | JFloat (Finite q) => Return (round_half_even q)
  | JFloat (Infinity _) => Raise OverflowError
  | JFloat NaN => Raise ValueError
  | _ => Raise TypeError
  end.

End PyObj.

(** ** Session data *)

Inductive page : Type :=
| welcome | profile_setup | dashboard | crop_planner | soil_optimizer
| pest_identifier | weather_alerts | cost_tips | chat | history | settings.

(** The dict stored in [st.session_state.profile]; all six keys are set
    together when it is created. *)
Record profile_dict : Type := mkProfile {
  full_name : string;
  location : string;
  farm_size : string;
  primary_crops : string;
  experience_level : string;
  created_at : string
}.

(** An element of [st.session_state.recommendations]. *)
Record recommendation : Type := mkRec {
  rec_type : string;
  rec_title : string;
  rec_response : string;
  rec_created_at : string
}.

Inductive role : Type := user | assistant.

(** An element of [st.session_state.chat_history]. *)
Record chat_message : Type := mkMsg {
  msg_role : role;
  msg_content : string
}.

(** The dict returned by [fetch_weather]. *)
Record weather_dict : Type := mkWeather {
  temp : Z;
  humidity : json;
  description : json;
  icon : json
}.

Record session : Type := mkSession {
  profile : option profile_dict;
  recommendations : list recommendation;
  chat_history : list chat_message;
  weather_data : option weather_dict;
  current_page : page
}.

(** Lines 105-114: the session as initialised on the first run. *)
Definition initial_session : session :=
  {| profile := None; recommendations := []; chat_history := [];
     weather_data := None; current_page := welcome |}.

Definition recommendation_eq_dec (a b : recommendation) : {a = b} + {a <> b}.
Proof. decide equality; apply string_dec. Defined.

(** ** External services and the trace of a run *)

Record completion_request : Type := mkRequest {
  model : string;
  messages : list (string * string);   (* role, content *)
  temperature : Q;                      (* the decimal literal *)
  max_tokens : Z
}.

(** [response.choices[i].message.content], [None] for a null content. *)
Record completion_response : Type := mkResponse {
  choices : list (option string)
}.

Inductive http_outcome : Type :=
| GetFails                 (* requests.get raises *)
| JsonFails                (* .json() raises *)
| Body (v : json).

Record world : Type := mkWorld {
  client : bool;                               (* [client] is not None *)
  chat_completions_create : completion_request -> pyresult completion_response;
  geo_direct : string -> http_outcome;         (* q=location, limit=1 *)
  data_weather : json -> json -> http_outcome; (* lat, lon, units=metric *)
  now_isoformat : string                       (* datetime.now().isoformat() *)
}.

Inductive effect : Type :=
| StError (msg : string)
| StSuccess (msg : string)
| GeoRequest (q : string)
| WeatherRequest (lat lon : json)
| CompletionRequest (req : completion_request).

Definition is_external (e : effect) : bool :=
  match e with
  | StError _ | StSuccess _ => false
  | _ => true
  end.

(** The requests to external services made during a run. *)
Definition external_calls (t : list effect) : list effect :=
  filter is_external t.

(** ** The script monad: session state, exceptions and a trace *)

Record outcome (A : Type) : Type := mkOutcome {
  result : pyresult A;
  final : session;
  trace : list effect
}.
Arguments mkOutcome {A} _ _ _.
Arguments result {A} _.
Arguments final {A} _.
Arguments trace {A} _.

Definition M (A : Type) : Type := session -> outcome A.

Definition ret {A} (a : A) : M A := fun s => mkOutcome (Return a) s [].

Definition raise {A} (e : exn) : M A := fun s => mkOutcome (Raise e) s [].

(** The outcome [o] of a continuation, with the trace [t] of what ran
    before it put in front. *)
Definition after {A} (t : list effect) (o : outcome A) : outcome A :=
  mkOutcome (result o) (final o) (t ++ trace o)%list.

Definition bind {A B} (m : M A) (k : A -> M B) : M B := fun s =>
  let o := m s in
  match result o with
  | Return a => after (trace o) (k a (final o))
  | Raise e => mkOutcome (Raise e) (final o) (trace o)
  end.

Declare Scope script_scope.
Delimit Scope script_scope with script.
Notation "x <- m ;; k" := (bind m (fun x => k))
  (at level 61, m at next level, right associativity) : script_scope.
Notation "m ;; k" := (bind m (fun _ => k))
  (at level 61, right associativity) : script_scope.
Open Scope script_scope.

Definition get : M session := fun s => mkOutcome (Return s) s [].
Definition put (s : session) : M unit := fun _ => mkOutcome (Return tt) s [].
Definition emit (e : effect) : M unit := fun s => mkOutcome (Return tt) s [e].
Definition lift {A} (r : pyresult A) : M A := fun s => mkOutcome r s [].

(** [try: body  except <catches> as e: handler e] *)
Definition try_except {A} (body : M A) (catches : exn -> bool)
    (handler : exn -> M A) : M A := fun s =>
  let o := body s in
  match result o with
  | Return _ => o
  | Raise e =>
      if catches e then after (trace o) (handler e (final o))
      else o
  end.

Definition st_error (msg : string) : M unit := emit (StError msg).
Definition st_success (msg : string) : M unit := emit (StSuccess msg).
Definition st_stop {A} : M A := raise StopException.
Definition st_rerun {A} : M A := raise RerunException.

(** Assignments to the keys of [st.session_state]. *)
Definition with_profile (p : option profile_dict) (s : session) : session :=
  {| profile := p; recommendations := recommendations s;
     chat_history := chat_history s; weather_data := weather_data s;
     current_page := current_page s |}.

Definition with_recommendations (l : list recommendation) (s : session)
    : session :=
  {| profile := profile s; recommendations := l;
     chat_history := chat_history s; weather_data := weather_data s;
     current_page := current_page s |}.

Definition with_chat_history (l : list chat_message) (s : session) : session :=
  {| profile := profile s; recommendations := recommendations s;
     chat_history := l; weather_data := weather_data s;
     current_page := current_page s |}.

Definition with_weather_data (x : option weather_dict) (s : session)
    : session :=
  {| profile := profile s; recommendations := recommendations s;
     chat_history := chat_history s; weather_data := x;
     current_page := current_page s |}.

Definition with_current_page (p : page) (s : session) : session :=
  {| profile := profile s; recommendations := recommendations s;
     chat_history := chat_history s; weather_data := weather_data s;
     current_page := p |}.

Definition set_profile (p : option profile_dict) : M unit :=
  s <- get ;; put (with_profile p s).

Definition set_recommendations (l : list recommendation) : M unit :=
  s <- get ;; put (with_recommendations l s).

Definition set_chat_history (l : list chat_message) : M unit :=
  s <- get ;; put (with_chat_history l s).

Definition set_weather_data (x : option weather_dict) : M unit :=
  s <- get ;; put (with_weather_data x s).

Definition set_current_page (p : page) : M unit :=
  s <- get ;; put (with_current_page p s).

(** [st.session_state.profile.get(key, default)]: every key is present in
    a stored profile, so the default is never used; on [None] the attribute
    access raises (['NoneType' object has no attribute 'get']). *)
Definition profile_get (field : profile_dict -> string) : M string :=
  s <- get ;;
  match profile s with
  | Some p => ret (field p)
  | None => raise (AttributeError "get")
  end.

(** ** Widget inputs

    One run of the script sees at most one activated widget. *)

Inductive farm_size_option : Type :=
| FarmSmall | FarmMedium | FarmLarge | FarmVeryLarge.

Inductive experience_option : Type :=
| ExpBeginner | ExpIntermediate | ExpExperienced.

(** The option lists of the two select boxes of the profile form. *)
Definition farm_size_label (o : farm_size_option) : string :=
  match o with
  | FarmSmall => "Small (< 5 acres)"
  | FarmMedium => "Medium (5-50 acres)"
  | FarmLarge => "Large (50-200 acres)"
  | FarmVeryLarge => "Very Large (200+ acres)"
  end.

Definition experience_label (o : experience_option) : string :=
  match o with
  | ExpBeginner => "Beginner (0-2 years)"
  | ExpIntermediate => "Intermediate (3-10 years)"
  | ExpExperienced => "Experienced (10+ years)"
  end.

Inductive event : Type :=
| NoInput
  (* sidebar *)
| SidebarDashboard | SidebarHistory | SidebarChat | SidebarSettings
  (* welcome *)
| GetStarted
  (* profile_setup: the submitted profile form *)
| CreateProfile (name location : string) (farm_size : farm_size_option)
    (crops : string) (experience : experience_option)
  (* dashboard *)
| ToolCropPlanner | ToolPestIdentifier | ToolSoilOptimizer
| ToolCostTips | ToolWeatherAlerts | ToolAIAssistant
  (* the tool forms; [ph] is the text the number input renders to *)
| SubmitCrop (month weather soil : string)
| SubmitSoil (ph soil_type : string) (problems : list string)
| SubmitPest (crop symptoms : string)
| SubmitWeatherAdvice
| GetTips
  (* chat *)
| ChatInput (user_input : string)
  (* history: the Delete button with key del_i *)
| DeleteRecommendation (i : nat)
  (* settings *)
| SaveProfile (name location crops : string)
| ClearChat | ClearRecommendations | SignOut.

(** [l[0]] on a Python list *)
Definition index0 {A} (l : list A) : pyresult A :=
  match l with
  | x :: _ => Return x
  | [] => Raise IndexError
  end.

(** [label.split()[0].lower()] *)
Definition first_token_lower (label : string) : pyresult string :=
  match index0 (PyStr.split label) with
  | Return t => Return (PyStr.lower t)
  | Raise e => Raise e
  end.

(** [l.remove(x)]: drop the first element equal to [x]; [None] stands for
    the [ValueError] Python raises when there is none. *)
Fixpoint list_remove (x : recommendation) (l : list recommendation)
    : option (list recommendation) :=
  match l with
  | [] => None
  | y :: l' =>
      if recommendation_eq_dec y x then Some l'
      else
        match list_remove x l' with
        | Some r => Some (y :: r)
        | None => None
        end
  end.

Section App.

Variable w : world.

(** *** Helper functions *)

Definition system_prompt : string :=
  "You are a helpful and knowledgeable farming assistant. Provide practical, actionable advice for farmers. Be specific, detailed, and consider the farmer's unique situation.".

(** [client.chat.completions.create(...)] *)
Definition completions_create (req : completion_request)
    : M completion_response :=
  emit (CompletionRequest req) ;;
  lift (chat_completions_create w req).

(** Lines 120-140. *)
Definition call_openai (prompt : string) : M (option string) :=
  (if negb (client w) then
     st_error "Please configure your OpenAI API key in secrets." ;;
     st_stop
   else ret tt) ;;
  try_except
    (response <- completions_create
       {| model := "gpt-4o-mini";
          messages := [("system", system_prompt); ("user", prompt)];
          temperature := (7 # 10)%Q;
          max_tokens := 2048 |} ;;
     lift (index0 (choices response)))
    is_Exception
    (fun e =>
       st_error ("API Error: " ++ exn_str e) ;;
       st_error "Please check your API key and try again." ;;
       st_stop).

(** [requests.get(url).json()], with the request recorded. *)
Definition requests_get_json (req : effect) (o : http_outcome) : M json :=
  emit req ;;
  match o with
  | GetFails => raise ConnectionError
  | JsonFails => raise JSONDecodeError
  | Body v => ret v
  end.

(** Lines 142-167. *)
Definition fetch_weather (location : string) : M (option weather_dict) :=
  try_except
    (geo_data <- requests_get_json (GeoRequest location)
                   (geo_direct w location) ;;
     if negb (PyObj.truthy geo_data) then ret None
     else
       (g0 <- lift (PyObj.getitem0 geo_data) ;;
        lat <- lift (PyObj.getitem g0 "lat") ;;
        g1 <- lift (PyObj.getitem0 geo_data) ;;
        lon <- lift (PyObj.getitem g1 "lon") ;;
        weather <- requests_get_json (WeatherRequest lat lon)
                     (data_weather w lat lon) ;;
        m0 <- lift (PyObj.getitem weather "main") ;;
        t <- lift (PyObj.getitem m0 "temp") ;;
        rounded <- lift (PyObj.round t) ;;
        m1 <- lift (PyObj.getitem weather "main") ;;
        hum <- lift (PyObj.getitem m1 "humidity") ;;
        w0 <- lift (PyObj.getitem weather "weather") ;;
        w00 <- lift (PyObj.getitem0 w0) ;;
        descr <- lift (PyObj.getitem w00 "description") ;;
        w1 <- lift (PyObj.getitem weather "weather") ;;
        w10 <- lift (PyObj.getitem0 w1) ;;
        ico <- lift (PyObj.getitem w10 "icon") ;;
        ret (Some {| temp := rounded; humidity := hum;
                     description := descr; icon := ico |})))
    (fun _ => true)
    (fun _ => ret None).

(** Appends to the two lists of the session. *)
Definition recommendations_append (r : recommendation) : M unit :=
  s <- get ;;
  set_recommendations (recommendations s ++ [r])%list.

Definition chat_history_append (m : chat_message) : M unit :=
  s <- get ;;
  set_chat_history (chat_history s ++ [m])%list.

(** [if response:] on the value [call_openai] returned. *)
Definition response_text (response : option string) : option string :=
  match response with
  | Some r => if PyStr.truthy r then Some r else None
  | None => None
  end.

(** *** Pages *)

(** Lines 170-190. *)
Definition welcome_page (ev : event) : M unit :=
  match ev with
  | GetStarted =>
      s <- get ;;
      set_current_page
        (match profile s with
         | None => profile_setup
         | Some _ => dashboard
         end) ;;
      st_rerun
  | _ => ret tt
  end.

(** Lines 192-219. *)
Definition profile_setup_page (ev : event) : M unit :=
  match ev with
  | CreateProfile name location farm_size crops experience =>
      if PyStr.truthy name && PyStr.truthy location then
        size <- lift (first_token_lower (farm_size_label farm_size)) ;;
        level <- lift (first_token_lower (experience_label experience)) ;;
        set_profile (Some {| full_name := name;
                             location := location;
                             farm_size := size;
                             primary_crops := crops;
                             experience_level := level;
                             created_at := now_isoformat w |}) ;;
        st_success (PyStr.check_mark ++ " Profile created successfully!") ;;
        set_current_page dashboard ;;
        st_rerun
      else
        st_error "Please fill in all required fields"
  | _ => ret tt
  end.

(** Lines 229-236: the weather shown on the dashboard. *)
Definition dashboard_weather (prof : option profile_dict)
    : M (option weather_dict) :=
  match prof with
  | Some p =>
      if PyStr.truthy (location p) then
        s <- get ;;
        match weather_data s with
        | None =>
            fetched <- fetch_weather (location p) ;;
            match fetched with
            | Some wd => set_weather_data (Some wd) ;; ret (Some wd)
            | None => ret None
            end
        | Some cached => ret (Some cached)
        end
      else ret None
  | None => ret None
  end.

(** Lines 239-263: the metrics.  Both layouts read
    [profile.get('primary_crops')]; the layout with the weather also shows
    [weather_data['description'].title()], which only a [str] has. *)
Definition dashboard_metrics (prof : option profile_dict)
    (weather : option weather_dict) : M unit :=
  match prof with
  | None => raise (AttributeError "get")
  | Some _ =>
      match weather with
      | Some wd =>
          match description wd with
          | JStr _ => ret tt
          | _ => raise (AttributeError "title")
          end
      | None => ret tt
      end
  end.

(** Lines 221-295. *)
Definition dashboard_page (ev : event) : M unit :=
  s <- get ;;
  let prof := profile s in
  name <- match prof with
          | Some p => lift (index0 (PyStr.split (full_name p)))
          | None => ret "Farmer"
          end ;;
  weather <- dashboard_weather prof ;;
  dashboard_metrics prof weather ;;
  match ev with
  | ToolCropPlanner => set_current_page crop_planner ;; st_rerun
  | ToolPestIdentifier => set_current_page pest_identifier ;; st_rerun
  | ToolSoilOptimizer => set_current_page soil_optimizer ;; st_rerun
  | ToolCostTips => set_current_page cost_tips ;; st_rerun
  | ToolWeatherAlerts => set_current_page weather_alerts ;; st_rerun
  | ToolAIAssistant => set_current_page chat ;; st_rerun
  | _ => ret tt
  end.

(** The f-string of lines 311-328. *)
Definition crop_prompt (loc month weather soil size crops level : string)
    : string :=
  PyStr.unlines
    [ "As an expert agricultural advisor, recommend the best crops for a farmer with the following conditions:";
      "                ";
      "Location: " ++ loc;
      "Planting Month: " ++ month;
      "Weather Conditions: " ++ weather;
      "Soil Type: " ++ soil;
      "Farm Size: " ++ size;
      "Current Crops: " ++ crops;
      "Experience: " ++ level;
      "";
      "Provide 3-5 specific crop recommendations with:";
      "1. Crop name and variety";
      "2. Why it's suitable for these conditions";
      "3. Expected yield timeline";
      "4. Key care tips";
      "5. Potential challenges to watch for";
      "";
      "Be practical and specific to the farmer's situation." ].

(** Lines 297-341. *)
Definition crop_planner_page (ev : event) : M unit :=
  match ev with
  | SubmitCrop month weather soil =>
      loc <- profile_get location ;;
      size <- profile_get farm_size ;;
      crops <- profile_get primary_crops ;;
      level <- profile_get experience_level ;;
      response <- call_openai
        (crop_prompt loc month weather soil size crops level) ;;
      match response_text response with
      | Some r =>
          recommendations_append
            {| rec_type := "crop_planner";
               rec_title := "Crop Recommendations for " ++ month;
               rec_response := r;
               rec_created_at := now_isoformat w |} ;;
          st_success (PyStr.check_mark ++ " Recommendation saved to history!")
      | None =>
          st_error "Failed to get recommendations. Please try again."
      end
  | _ => ret tt
  end.

(** The f-string of lines 356-376. *)
Definition soil_prompt (loc crops size ph soil_type : string)
    (problems : list string) : string :=
  PyStr.unlines
    [ "As a soil science expert, provide detailed recommendations for improving this farmer's soil:";
      "";
      "Farmer Profile:";
      "- Location: " ++ loc;
      "- Crops: " ++ crops;
      "- Farm Size: " ++ size;
      "";
      "Soil Analysis:";
      "- pH Level: " ++ ph;
      "- Soil Type: " ++ soil_type;
      "- Problems: " ++
        match problems with
        | [] => "None specified"
        | _ :: _ => String.concat ", " problems
        end;
      "";
      "Please provide:";
      "1. Overall soil health assessment";
      "2. Specific amendments needed";
      "3. Organic matter recommendations";
      "4. Cover crop suggestions";
      "5. Long-term soil improvement plan";
      "6. Cost-effective solutions suitable for their farm size";
      "";
      "Be practical and actionable." ].

(** Lines 343-389. *)
Definition soil_optimizer_page (ev : event) : M unit :=
  match ev with
  | SubmitSoil ph soil_type problems =>
      loc <- profile_get location ;;
      crops <- profile_get primary_crops ;;
      size <- profile_get farm_size ;;
      response <- call_openai
        (soil_prompt loc crops size ph soil_type problems) ;;
      match response_text response with
      | Some r =>
          recommendations_append
            {| rec_type := "soil_optimizer";
               rec_title := "Soil Health Analysis";
               rec_response := r;
               rec_created_at := now_isoformat w |} ;;
          st_success (PyStr.check_mark ++ " Analysis saved to history!")
      | None =>
          st_error "Failed to get analysis. Please try again."
      end
  | _ => ret tt
  end.

(** The f-string of lines 404-423. *)
Definition pest_prompt (loc size crop symptoms : string) : string :=
  PyStr.unlines
    [ "As an agricultural pest control expert, identify the pest and provide treatment recommendations:";
      "";
      "Farmer Details:";
      "- Location: " ++ loc;
      "- Farm Size: " ++ size;
      "";
      "Problem Description:";
      "- Affected Crop: " ++ crop;
      "- Symptoms: " ++ symptoms;
      "";
      "Please provide:";
      "1. Most likely pest identification (with confidence level)";
      "2. Alternative possibilities to consider";
      "3. Immediate control measures";
      "4. Long-term prevention strategies";
      "5. Organic/natural treatment options";
      "6. Chemical treatments (as last resort) with safety guidelines";
      "7. When to seek professional help";
      "";
      "Be specific and practical." ].

(** Lines 391-438. *)
Definition pest_identifier_page (ev : event) : M unit :=
  match ev with
  | SubmitPest crop symptoms =>
      if PyStr.truthy crop && PyStr.truthy symptoms then
        loc <- profile_get location ;;
        size <- profile_get farm_size ;;
        response <- call_openai (pest_prompt loc size crop symptoms) ;;
        match response_text response with
        | Some r =>
            recommendations_append
              {| rec_type := "pest_identifier";
                 rec_title := "Pest Identification for " ++ crop;
                 rec_response := r;
                 rec_created_at := now_isoformat w |} ;;
            st_success (PyStr.check_mark ++ " Report saved to history!")
        | None =>
            st_error "Failed to identify pest. Please try again."
        end
      else
        st_error "Please provide crop name and symptoms"
  | _ => ret tt
  end.

(** Lines 440-472: static advice, nothing is stored. *)
Definition weather_alerts_page (ev : event) : M unit :=
  match ev with
  | SubmitWeatherAdvice =>
      st_success (PyStr.check_mark ++ " Advice generated!")
  | _ => ret tt
  end.

(** Lines 474-518: static tips, nothing is stored. *)
Definition cost_tips_page (ev : event) : M unit :=
  match ev with
  | GetTips => st_success (PyStr.check_mark ++ " Tips loaded!")
  | _ => ret tt
  end.

(** The two f-strings of lines 539-554. *)
Definition profile_context (name loc size crops level : string) : string :=
  PyStr.unlines
    [ "";
      "Farmer Profile:";
      "- Name: " ++ name;
      "- Location: " ++ loc;
      "- Farm Size: " ++ size;
      "- Crops: " ++ crops;
      "- Experience: " ++ level;
      "" ].

Definition chat_prompt (context user_input : string) : string :=
  PyStr.unlines
    [ "You are a friendly and knowledgeable AI farming assistant.";
      "";
      context;
      "";
      "Farmer's Question: " ++ user_input;
      "";
      "Provide a helpful, conversational response. Be friendly but informative. Keep responses focused and practical. Use the farmer's profile information to give personalized advice." ].

(** Lines 520-563. *)
Definition chat_page (ev : event) : M unit :=
  match ev with
  | ChatInput user_input =>
      if PyStr.truthy user_input then
        chat_history_append {| msg_role := user; msg_content := user_input |} ;;
        name <- profile_get full_name ;;
        loc <- profile_get location ;;
        size <- profile_get farm_size ;;
        crops <- profile_get primary_crops ;;
        level <- profile_get experience_level ;;
        response <- call_openai
          (chat_prompt (profile_context name loc size crops level)
             user_input) ;;
        match response_text response with
        | Some r =>
            chat_history_append
              {| msg_role := assistant; msg_content := r |}
        | None =>
            st_error "Failed to get response. Please try again."
        end ;;
        st_rerun
      else ret tt
  | _ => ret tt
  end.

(** Line 575: [st.session_state.recommendations.remove(rec)]. *)
Definition recommendations_remove (r : recommendation) : M unit :=
  s <- get ;;
  match list_remove r (recommendations s) with
  | Some l => set_recommendations l
  | None => raise ValueError
  end.

(** Lines 565-576: the button of key del_i sits next to the i-th entry
    of the reversed list. *)
Definition history_page (ev : event) : M unit :=
  s <- get ;;
  match recommendations s with
  | [] => ret tt
  | _ :: _ =>
      match ev with
      | DeleteRecommendation i =>
          match nth_error (rev (recommendations s)) i with
          | Some r => recommendations_remove r ;; st_rerun
          | None => ret tt
          end
      | _ => ret tt
      end
  end.

(** Lines 578-615. *)
Definition settings_page (ev : event) : M unit :=
  s <- get ;;
  match profile s, ev with
  | Some p, SaveProfile name loc crops =>
      set_profile (Some {| full_name := name;
                           location := loc;
                           farm_size := farm_size p;
                           primary_crops := crops;
                           experience_level := experience_level p;
                           created_at := created_at p |}) ;;
      st_success (PyStr.check_mark ++ " Profile updated!")
  | _, _ => ret tt
  end ;;
  match ev with
  | ClearChat => set_chat_history [] ;; st_success "Chat cleared!"
  | _ => ret tt
  end ;;
  match ev with
  | ClearRecommendations =>
      set_recommendations [] ;; st_success "Recommendations cleared!"
  | _ => ret tt
  end ;;
  match ev with
  | SignOut => set_profile None ;; set_current_page welcome ;; st_rerun
  | _ => ret tt
  end.

(** Lines 620-643: the sidebar, drawn only when a profile exists. *)
Definition sidebar (ev : event) : M unit :=
  s <- get ;;
  match profile s with
  | Some _ =>
      match ev with
      | SidebarDashboard => set_current_page dashboard ;; st_rerun
      | SidebarHistory => set_current_page history ;; st_rerun
      | SidebarChat => set_current_page chat ;; st_rerun
      | SidebarSettings => set_current_page settings ;; st_rerun
      | _ => ret tt
      end
  | None => ret tt
  end.

(** Lines 646-667: page routing. *)
Definition route (ev : event) : M unit :=
  s <- get ;;
  match current_page s with
  | welcome => welcome_page ev
  | profile_setup => profile_setup_page ev
  | dashboard => dashboard_page ev
  | crop_planner => crop_planner_page ev
  | soil_optimizer => soil_optimizer_page ev
  | pest_identifier => pest_identifier_page ev
  | weather_alerts => weather_alerts_page ev
  | cost_tips => cost_tips_page ev
  | chat => chat_page ev
  | history => history_page ev
  | settings => settings_page ev
  end.

(** Lines 618-667. *)
Definition main (ev : event) : M unit :=
  sidebar ev ;; route ev.

End App.

(** ** The session as a transition system

    The session survives however the run ends; what one run leaves behind
    is the start of the next. *)
Definition step (w : world) (ev : event) (s : session) : session :=
  final (main w ev s).

Inductive reachable : session -> Prop :=
| reachable_init : reachable initial_session
| reachable_step : forall w ev s,
    reachable s -> reachable (step w ev s).

(** ** Properties of transcripts and snapshots *)

(** Every assistant entry of a transcript has a non-empty content and comes
    directly after a user entry; [prev_user] tells whether the entry before
    the list is a user entry. *)
Fixpoint answers_paired (prev_user : bool) (l : list chat_message) : bool :=
  match l with
  | [] => true
  | m :: l' =>
      match msg_role m with
      | user => answers_paired true l'
      | assistant =>
          prev_user && PyStr.truthy (msg_content m) && answers_paired false l'
      end
  end.

Definition transcript_ok (l : list chat_message) : Prop :=
  answers_paired false l = true.

(** [z] is an integer nearest to the number [t] (an [int], a [bool] read as
    an [int], or a finite [float]). *)
Definition nearest_integer (t : json) (z : Z) : Prop :=
  match t with
  | JInt n => z = n
  | JBool b => z = (if b then 1 else 0)
  | JFloat (Finite q) => (Qabs (inject_Z z - q) <= 1 # 2)%Q
  | _ => False
  end.

(** The request [call_openai] builds for a prompt. *)
Definition request_for (prompt : string) : completion_request :=
  {| model := "gpt-4o-mini";
     messages := [("system", system_prompt); ("user", prompt)];
     temperature := (7 # 10)%Q;
     max_tokens := 2048 |}.

(** ** Abstract transitions

    What a run can do to the session, one assignment group at a time. *)
Inductive transition (s : session) : session -> Prop :=
| tr_goto p :
    (profile s = None -> p = profile_setup) ->
    transition s (with_current_page p s)
| tr_create prof :
    transition s (with_current_page dashboard (with_profile (Some prof) s))
| tr_update prof :
    profile s <> None ->
    transition s (with_profile (Some prof) s)
| tr_sign_out :
    transition s (with_current_page welcome (with_profile None s))
| tr_recommendations l :
    transition s (with_recommendations l s)
| tr_clear_chat :
    transition s (with_chat_history [] s)
| tr_ask u :
    transition s
      (with_chat_history
         (chat_history s ++ [ {| msg_role := user; msg_content := u |} ]) s)
| tr_answer l u r :
    chat_history s = (l ++ [ {| msg_role := user; msg_content := u |} ])%list ->
    r <> "" ->
    transition s
      (with_chat_history
         (chat_history s ++ [ {| msg_role := assistant; msg_content := r |} ]) s)
| tr_weather snap :
    weather_data s = None ->
    transition s (with_weather_data (Some snap) s).

Inductive transitions : session -> session -> Prop :=
| ts_refl s : transitions s s
| ts_step s1 s2 s3 :
    transition s1 s2 -> transitions s2 s3 -> transitions s1 s3.

(** The profile gate of the navigation: without a profile only the two
    entry pages can be current. *)
Definition profile_gate (s : session) : Prop :=
  profile s = None ->
  current_page s = welcome \/ current_page s = profile_setup.

(** The requests that go to the weather service. *)
Definition is_weather_request (e : effect) : bool :=
  match e with
  | GeoRequest _ | WeatherRequest _ _ => true
  | _ => false
  end.

Definition no_weather_request (t : list effect) : Prop :=
  Forall (fun e => is_weather_request e = false) t.

(** A run that keeps to the abstract transitions, does not fail on a
    missing profile when there is one, and leaves the weather service alone
    when a snapshot is cached. *)
Definition well_behaved (s : session) (o : outcome unit) : Prop :=
  transitions s (final o) /\
  (profile s <> None -> result o <> Raise (AttributeError "get")) /\
  (weather_data s <> None -> no_weather_request (trace o)).

(** Whether the entry before the end of [l] is a user entry, [b] standing
    for the entry before [l]. *)
Fixpoint ends_with_user (b : bool) (l : list chat_message) : bool :=
  match l with
  | [] => b
  | m :: l' =>
      ends_with_user (match msg_role m with user => true | assistant => false end) l'
  end.

(** The rest of the string after one leading white-space character, if
    it starts with one. *)
Definition skip_space (s : string) : option string :=
  match s with
  | String c1 r1 =>
      if PyStr.isspace c1 then Some r1
      else
        match r1 with
        | String c2 r2 =>
            if PyStr.isspace2 c1 c2 then Some r2
            else
              match r2 with
              | String c3 r3 =>
                  if PyStr.isspace3 c1 c2 c3 then Some r3 else None
              | EmptyString => None
              end
        | EmptyString => None
        end
  | EmptyString => None
  end.

(** ** Sample environments and sessions *)

(** No credential and no network. *)
Definition offline_world : world :=
  {| client := false;
     chat_completions_create := fun _ => Raise (APIError "Connection error.");
     geo_direct := fun _ => GetFails;
     data_weather := fun _ _ => GetFails;
     now_isoformat := "2024-06-01T09:30:00.000000" |}.

Definition austin_geo : json :=
  JList [JDict [("name", JStr "Austin"); ("lat", JFloat (Finite (302672 # 10000)));
                ("lon", JFloat (Finite (-977431 # 10000)))]].

Definition austin_weather : json :=
  JDict [("weather", JList [JDict [("id", JInt 800); ("main", JStr "Clear");
                                   ("description", JStr "clear sky");
                                   ("icon", JStr "01d")]]);
         ("main", JDict [("temp", JFloat (Finite (305 # 10)));
                         ("humidity", JInt 40)])].

(** Both services answer; the completion has the given content. *)
Definition online_world (content : option string) : world :=
  {| client := true;
     chat_completions_create := fun _ => Return {| choices := [content] |};
     geo_direct := fun _ => Body austin_geo;
     data_weather := fun _ _ => Body austin_weather;
     now_isoformat := "2024-06-01T09:30:00.000000" |}.

Definition sample_profile : profile_dict :=
  {| full_name := "Ada Farmer"; location := "Austin"; farm_size := "small";
     primary_crops := "Corn"; experience_level := "beginner";
     created_at := "2024-06-01T09:30:00.000000" |}.

Definition sample_recommendation : recommendation :=
  {| rec_type := "soil_optimizer"; rec_title := "Soil Health Analysis";
     rec_response := "Add compost."; rec_created_at := "2024-06-01T09:31:00.000000" |}.

Definition sample_weather : weather_dict :=
  {| temp := 30; humidity := JInt 40; description := JStr "clear sky";
     icon := JStr "01d" |}.

Definition sample_session (p : page) : session :=
  {| profile := Some sample_profile;
     recommendations := [sample_recommendation];
     chat_history := [ {| msg_role := user; msg_content := "When to sow?" |};
                       {| msg_role := assistant; msg_content := "In spring." |} ];
     weather_data := Some sample_weather;
     current_page := p |}.

(** ** Notions used by the further properties *)

(** A stored recommendation as the three advisory pages build it. *)
Definition recommendation_ok (r : recommendation) : Prop :=
  rec_response r <> "" /\
  (rec_type r = "crop_planner" /\
   (exists month, rec_title r = "Crop Recommendations for " ++ month) \/
   rec_type r = "soil_optimizer" /\ rec_title r = "Soil Health Analysis" \/
   rec_type r = "pest_identifier" /\
   (exists crop, crop <> "" /\ rec_title r = "Pest Identification for " ++ crop)).

(** The two derived fields of a stored profile. *)
Definition categories_ok (p : profile_dict) : Prop :=
  In (farm_size p) ["small"; "medium"; "large"; "very"] /\
  In (experience_level p) ["beginner"; "intermediate"; "experienced"].

(** What holds of every session the program can be in. *)
Definition session_ok (s : session) : Prop :=
  (profile s = None <->
   current_page s = welcome \/ current_page s = profile_setup) /\
  (forall p, profile s = Some p -> categories_ok p) /\
  Forall recommendation_ok (recommendations s) /\
  Forall (fun m => msg_content m <> "") (chat_history s).

(** The requests one run may send, given the session it starts from:
    none; or one completion request, from one of the four pages that call
    the gateway; or those of one weather fetch for the profile's location,
    from the dashboard with no snapshot cached. *)
Definition calls_ok (w : world) (s : session) (t : list effect) : Prop :=
  external_calls t = [] \/
  (In (current_page s) [crop_planner; soil_optimizer; pest_identifier; chat] /\
   exists prompt, external_calls t = [CompletionRequest (request_for prompt)]) \/
  (current_page s = dashboard /\ weather_data s = None /\
   exists p,
     profile s = Some p /\ PyStr.truthy (location p) = true /\
     external_calls t = trace (fetch_weather w (location p) s)).

(** A run that ends in a sound session and sent only what it may. *)
Definition run_ok (w : world) (s : session) (o : outcome unit) : Prop :=
  session_ok (final o) /\ calls_ok w s (trace o).

(** A session reached by creating a profile, asking the crop planner and
    then the chat, with both services answering. *)
Definition busy_session : session :=
  step (online_world (Some "Plant okra.")) (ChatInput "And maize?")
    (step (online_world (Some "Plant okra.")) SidebarChat
       (step (online_world (Some "Plant okra."))
          (SubmitCrop "June" "Hot & Dry" "Loamy")
          (step (online_world (Some "Plant okra.")) ToolCropPlanner
             (step (online_world (Some "Plant okra."))
                (CreateProfile "Bo" "Oslo" FarmLarge "Rye" ExpExperienced)
                (step (online_world (Some "Plant okra.")) GetStarted
                   initial_session))))).

(** * Verification *)

(** ** The script monad *)

Lemma after_nil {A} (o : outcome A) : after [] o = o.
Proof. now destruct o. Qed.

Lemma after_after {A} (t1 t2 : list effect) (o : outcome A) :
  after t1 (after t2 o) = after (t1 ++ t2) o.
Proof. unfold after. simpl. now rewrite app_assoc. Qed.

Lemma bind_Return {A B} (m : M A) (k : A -> M B) s a s' t :
  m s = mkOutcome (Return a) s' t -> bind m k s = after t (k a s').
Proof. intros H. unfold bind. now rewrite H. Qed.

Lemma bind_Raise {A B} (m : M A) (k : A -> M B) s e s' t :
  m s = mkOutcome (Raise e) s' t -> bind m k s = mkOutcome (Raise e) s' t.
Proof. intros H. unfold bind. now rewrite H. Qed.

Lemma bind_assoc {A B C} (m : M A) (k1 : A -> M B) (k2 : B -> M C) s :
  bind (bind m k1) k2 s = bind m (fun x => bind (k1 x) k2) s.
Proof.
  unfold bind. destruct (m s) as [[a|e] s1 t1]; simpl; [|reflexivity].
  destruct (k1 a s1) as [[b|e] s2 t2]; simpl; [|reflexivity].
  unfold after. simpl. now rewrite app_assoc.
Qed.

Lemma bind_ret {A B} (a : A) (k : A -> M B) s : bind (ret a) k s = k a s.
Proof. unfold bind, ret. simpl. apply after_nil. Qed.

Lemma bind_raise {A B} (e : exn) (k : A -> M B) s :
  bind (raise e) k s = mkOutcome (Raise e) s [].
Proof. reflexivity. Qed.

Lemma bind_lift_ret {A B} (a : A) (k : A -> M B) s :
  bind (lift (Return a)) k s = k a s.
Proof. unfold bind, lift. simpl. apply after_nil. Qed.

Lemma bind_lift_exn {A B} (e : exn) (k : A -> M B) s :
  bind (lift (Raise e)) k s = mkOutcome (Raise e) s [].
Proof. reflexivity. Qed.

Lemma bind_get {A} (k : session -> M A) s : bind get k s = k s s.
Proof. unfold bind, get. simpl. apply after_nil. Qed.

Lemma bind_put {A} (s' : session) (k : unit -> M A) s :
  bind (put s') k s = k tt s'.
Proof. unfold bind, put. simpl. apply after_nil. Qed.

Lemma bind_emit {A} (e : effect) (k : unit -> M A) s :
  bind (emit e) k s = after [e] (k tt s).
Proof. reflexivity. Qed.

Lemma bind_set_profile {A} p (k : unit -> M A) s :
  bind (set_profile p) k s = k tt (with_profile p s).
Proof. unfold set_profile. now rewrite bind_assoc, bind_get, bind_put. Qed.

Lemma bind_set_recommendations {A} l (k : unit -> M A) s :
  bind (set_recommendations l) k s = k tt (with_recommendations l s).
Proof. unfold set_recommendations. now rewrite bind_assoc, bind_get, bind_put. Qed.

Lemma bind_set_chat_history {A} l (k : unit -> M A) s :
  bind (set_chat_history l) k s = k tt (with_chat_history l s).
Proof. unfold set_chat_history. now rewrite bind_assoc, bind_get, bind_put. Qed.

Lemma bind_set_weather_data {A} x (k : unit -> M A) s :
  bind (set_weather_data x) k s = k tt (with_weather_data x s).
Proof. unfold set_weather_data. now rewrite bind_assoc, bind_get, bind_put. Qed.

Lemma bind_set_current_page {A} p (k : unit -> M A) s :
  bind (set_current_page p) k s = k tt (with_current_page p s).
Proof. unfold set_current_page. now rewrite bind_assoc, bind_get, bind_put. Qed.

Lemma try_except_Return {A} (body : M A) c h s a s' t :
  body s = mkOutcome (Return a) s' t ->
  try_except body c h s = mkOutcome (Return a) s' t.
Proof. intros H. unfold try_except. now rewrite H. Qed.

Lemma try_except_Raise {A} (body : M A) c h s e s' t :
  body s = mkOutcome (Raise e) s' t ->
  try_except body c h s =
  if c e then after t (h e s') else mkOutcome (Raise e) s' t.
Proof. intros H. unfold try_except. now rewrite H. Qed.

Create Rewrite HintDb script.
#[local] Hint Rewrite @bind_assoc @bind_ret @bind_raise @bind_lift_ret
  @bind_lift_exn @bind_get @bind_put @bind_emit @bind_set_profile
  @bind_set_recommendations @bind_set_chat_history @bind_set_weather_data
  @bind_set_current_page @after_nil @after_after : script.

(** Run a script symbolically as far as its shape is known. *)
Ltac run := repeat (autorewrite with script; cbn [negb andb orb]).

(** ** The Python primitives on sample inputs *)

Example split_label :
  PyStr.split "Very Large (200+ acres)" = ["Very"; "Large"; "(200+"; "acres)"].
Proof. reflexivity. Qed.

Example split_blank : PyStr.split "  " = [].
Proof. reflexivity. Qed.

(** U+00A0 and U+2003 separate tokens as SPACE does. *)
Example split_wide_spaces :
  PyStr.split (PyStr.of_bytes [65; 194; 160; 66; 226; 128; 131; 67]%nat)
  = ["A"; "B"; "C"].
Proof. reflexivity. Qed.

Example round_ties_to_even :
  map PyObj.round_half_even
      [(5 # 2)%Q; (7 # 2)%Q; (-5 # 2)%Q; (1 # 2)%Q; (-26 # 10)%Q]
  = [2; 4; -2; 0; -3].
Proof. reflexivity. Qed.

Example fetch_austin :
  fetch_weather (online_world None) "Austin" initial_session =
  mkOutcome (Return (Some sample_weather)) initial_session
    [GeoRequest "Austin";
     WeatherRequest (JFloat (Finite (302672 # 10000)))
                    (JFloat (Finite (-977431 # 10000)))].
Proof. reflexivity. Qed.

(** ** Category derivation *)

Lemma farm_size_derivation (o : farm_size_option) :
  first_token_lower (farm_size_label o) =
  Return match o with
         | FarmSmall => "small"
         | FarmMedium => "medium"
         | FarmLarge => "large"
         | FarmVeryLarge => "very"
         end.
Proof. destruct o; reflexivity. Qed.

Lemma experience_derivation (o : experience_option) :
  first_token_lower (experience_label o) =
  Return match o with
         | ExpBeginner => "beginner"
         | ExpIntermediate => "intermediate"
         | ExpExperienced => "experienced"
         end.
Proof. destruct o; reflexivity. Qed.

(** C2, as stated, fails: the label "Very Large (200+ acres)" derives the
    category "very", which is not one of small, medium, large, very_large. *)
Lemma very_large_label_derives_very :
  first_token_lower (farm_size_label FarmVeryLarge) = Return "very" /\
  ~ In "very" ["small"; "medium"; "large"; "very_large"].
Proof.
  split; [reflexivity|].
  simpl. intros [H|[H|[H|[H|[]]]]]; discriminate H.
Qed.

(** C2 (amended): every farm-size label of the profile form derives, as the
    lower-cased first white-space-delimited token, one of small, medium,
    large, very; every experience label derives one of beginner,
    intermediate, experienced. *)
Theorem derived_categories (fs : farm_size_option) (ex : experience_option) :
  (exists c, first_token_lower (farm_size_label fs) = Return c /\
             In c ["small"; "medium"; "large"; "very"]) /\
  (exists c, first_token_lower (experience_label ex) = Return c /\
             In c ["beginner"; "intermediate"; "experienced"]).
Proof.
  split.
  - rewrite farm_size_derivation. eexists; split; [reflexivity|].
    destruct fs; simpl; tauto.
  - rewrite experience_derivation. eexists; split; [reflexivity|].
    destruct ex; simpl; tauto.
Qed.

(** ** Profile creation *)

Lemma truthy_empty (x : string) : PyStr.truthy x = false <-> x = "".
Proof. destruct x; simpl; split; intros H; congruence. Qed.

Lemma truthy_nonempty (x : string) : PyStr.truthy x = true <-> x <> "".
Proof. destruct x; simpl; split; intros H; congruence. Qed.

(** The presence check of the profile form is made on the values as typed:
    the form reports the error, and leaves the session as it was, if and
    only if the name or the location is the empty string; when both are
    non-empty it stores the profile with the derived categories, stamps
    created_at with the current time and moves to the dashboard. *)
Theorem profile_creation_validation
    (w : world) (s : session) (name loc crops : string)
    (fs : farm_size_option) (ex : experience_option) :
  let o := profile_setup_page w (CreateProfile name loc fs crops ex) s in
  ((name = "" \/ loc = "") <->
   (result o = Return tt /\ final o = s /\
    trace o = [StError "Please fill in all required fields"])) /\
  ((name <> "" /\ loc <> "") <->
   (exists size level,
      first_token_lower (farm_size_label fs) = Return size /\
      first_token_lower (experience_label ex) = Return level /\
      result o = Raise RerunException /\
      final o =
        {| profile := Some {| full_name := name; location := loc;
                              farm_size := size; primary_crops := crops;
                              experience_level := level;
                              created_at := now_isoformat w |};
           recommendations := recommendations s;
           chat_history := chat_history s;
           weather_data := weather_data s;
           current_page := dashboard |} /\
      trace o =
        [StSuccess (PyStr.check_mark ++ " Profile created successfully!")])).
Proof.
  intros o. subst o. unfold profile_setup_page.
  destruct (PyStr.truthy name) eqn:Hn; destruct (PyStr.truthy loc) eqn:Hl;
    cbn [andb]; cbv iota.
  - apply truthy_nonempty in Hn, Hl.
    rewrite farm_size_derivation, bind_lift_ret.
    rewrite experience_derivation, bind_lift_ret.
    split.
    + split; [intros [H|H]; contradiction|].
      intros (_ & _ & H). discriminate H.
    + split; [|tauto]. intros _.
      do 2 eexists.
      repeat split.
  - apply truthy_nonempty in Hn. apply truthy_empty in Hl. subst loc.
    split.
    + split; [|tauto]. intros _. destruct s; repeat split.
    + split; [intros [_ H]; now elim H|].
      intros (? & ? & _ & _ & H & _). discriminate H.
  - apply truthy_empty in Hn. subst name.
    split.
    + split; [|tauto]. intros _. destruct s; repeat split.
    + split; [intros [H _]; now elim H|].
      intros (? & ? & _ & _ & H & _). discriminate H.
  - apply truthy_empty in Hn. subst name.
    split.
    + split; [|tauto]. intros _. destruct s; repeat split.
    + split; [intros [H _]; now elim H|].
      intros (? & ? & _ & _ & H & _). discriminate H.
Qed.

Lemma profile_creation_validation_witness :
  let o := profile_setup_page offline_world
             (CreateProfile "" "Austin" FarmSmall "Corn" ExpBeginner)
             initial_session in
  result o = Return tt /\ final o = initial_session /\
  trace o = [StError "Please fill in all required fields"].
Proof.
  apply (proj1 (proj1 (profile_creation_validation offline_world
                         initial_session "" "Austin" "Corn" FarmSmall
                         ExpBeginner))).
  left. reflexivity.
Defined.

(** ** Deleting a recommendation *)

Lemma list_remove_first (r : recommendation) (l1 l2 : list recommendation) :
  ~ In r l1 -> list_remove r (l1 ++ r :: l2) = Some (l1 ++ l2)%list.
Proof.
  induction l1 as [|y l1 IH]; intros Hnot; simpl.
  - destruct (recommendation_eq_dec r r); congruence.
  - destruct (recommendation_eq_dec y r) as [->|Hne].
    + elim Hnot. now left.
    + rewrite IH; [reflexivity|]. intros Hin. apply Hnot. now right.
Qed.

Lemma list_remove_absent (r : recommendation) (l : list recommendation) :
  ~ In r l -> list_remove r l = None.
Proof.
  induction l as [|y l IH]; intros Hnot; simpl; [reflexivity|].
  destruct (recommendation_eq_dec y r) as [->|Hne].
  - elim Hnot. now left.
  - rewrite IH; [reflexivity|]. intros Hin. apply Hnot. now right.
Qed.

Lemma first_occurrence (r : recommendation) (l : list recommendation) :
  In r l -> exists l1 l2, l = (l1 ++ r :: l2)%list /\ ~ In r l1.
Proof.
  induction l as [|y l IH]; intros Hin; [destruct Hin|].
  destruct (recommendation_eq_dec y r) as [->|Hne].
  - exists [], l. split; [reflexivity|]. intros [].
  - destruct Hin as [Heq|Hin]; [congruence|].
    destruct (IH Hin) as (l1 & l2 & -> & Hnot).
    exists (y :: l1), l2. split; [reflexivity|].
    intros [Heq|Hin']; [congruence|auto].
Qed.

(** ** Signing out *)

(** C5: with the settings page showing, the Sign Out button sets the profile
    to absent and the current page to welcome, and leaves the recommendation
    collection and the chat transcript as they were. *)
Theorem sign_out_effect (w : world) (s : session) :
  current_page s = settings ->
  let o := main w SignOut s in
  result o = Raise RerunException /\
  profile (final o) = None /\
  current_page (final o) = welcome /\
  recommendations (final o) = recommendations s /\
  chat_history (final o) = chat_history s.
Proof.
  intros Hpage o. subst o.
  destruct s as [[p|] recs hist wd pg]; simpl in Hpage; subst pg;
    repeat split.
Qed.

Lemma sign_out_effect_witness :
  let s := sample_session settings in
  let o := main offline_world SignOut s in
  result o = Raise RerunException /\
  profile (final o) = None /\
  current_page (final o) = welcome /\
  recommendations (final o) = recommendations s /\
  chat_history (final o) = chat_history s.
Proof.
  apply (sign_out_effect offline_world (sample_session settings)).
  reflexivity.
Defined.

(** ** The completion gateway *)

(** [call_openai] in normal form: what it returns, and what it emits, for
    each behaviour of the client. *)
Lemma call_openai_cases (w : world) (prompt : string) (s : session) :
  call_openai w prompt s =
  if negb (client w) then
    mkOutcome (Raise StopException) s
      [StError "Please configure your OpenAI API key in secrets."]
  else
    match chat_completions_create w (request_for prompt) with
    | Return resp =>
        match choices resp with
        | c :: _ =>
            mkOutcome (Return c) s [CompletionRequest (request_for prompt)]
        | [] =>
            mkOutcome (Raise StopException) s
              [CompletionRequest (request_for prompt);
               StError ("API Error: " ++ exn_str IndexError);
               StError "Please check your API key and try again."]
        end
    | Raise e =>
        if is_Exception e then
          mkOutcome (Raise StopException) s
            [CompletionRequest (request_for prompt);
             StError ("API Error: " ++ exn_str e);
             StError "Please check your API key and try again."]
        else
          mkOutcome (Raise e) s [CompletionRequest (request_for prompt)]
    end.
Proof.
  unfold call_openai, st_error, st_stop, request_for.
  destruct (client w); cbn [negb]; run; [|reflexivity].
  unfold completions_create.
  destruct (chat_completions_create w _) as [resp|e] eqn:Hc.
  - destruct (choices resp) as [|c rest] eqn:Hch.
    + erewrite try_except_Raise by (run; rewrite Hch; reflexivity).
      cbn [is_Exception]. run. reflexivity.
    + erewrite try_except_Return by (run; rewrite Hch; reflexivity).
      reflexivity.
  - erewrite try_except_Raise by (run; reflexivity).
    destruct (is_Exception e); run; reflexivity.
Qed.

Lemma call_openai_final (w : world) (prompt : string) (s : session) :
  final (call_openai w prompt s) = s.
Proof.
  rewrite call_openai_cases.
  destruct (negb (client w)); [reflexivity|].
  destruct (chat_completions_create w _) as [resp|e].
  - destruct (choices resp); reflexivity.
  - destruct (is_Exception e); reflexivity.
Qed.

(** C8: every completion request the gateway sends has temperature 0.7 and
    max_tokens 2048 and carries exactly the fixed system message followed by
    one user message holding the prompt; with a client configured exactly one
    request is sent, and when it succeeds the gateway returns the content of
    the first choice as received.  The session is not touched. *)
Theorem completion_request_contract
    (w : world) (prompt : string) (s : session) :
  let o := call_openai w prompt s in
  final o = s /\
  (forall req, In (CompletionRequest req) (trace o) ->
     temperature req = (7 # 10)%Q /\ max_tokens req = 2048 /\
     model req = "gpt-4o-mini" /\
     messages req = [("system", system_prompt); ("user", prompt)]) /\
  (client w = true ->
     external_calls (trace o) = [CompletionRequest (request_for prompt)]) /\
  (forall resp c rest,
     client w = true ->
     chat_completions_create w (request_for prompt) = Return resp ->
     choices resp = c :: rest ->
     result o = Return c /\
     trace o = [CompletionRequest (request_for prompt)]).
Proof.
  intros o. subst o. split; [apply call_openai_final|].
  rewrite call_openai_cases. split; [|split].
  - intros req Hin.
    assert (Hreq : req = request_for prompt).
    { destruct (negb (client w)).
      - destruct Hin as [H|[]]; discriminate H.
      - destruct (chat_completions_create w _) as [resp|e].
        + destruct (choices resp);
            simpl in Hin; intuition (try discriminate; congruence).
        + destruct (is_Exception e);
            simpl in Hin; intuition (try discriminate; congruence). }
    subst req. repeat split.
  - intros ->. cbn [negb].
    destruct (chat_completions_create w _) as [resp|e].
    + destruct (choices resp); reflexivity.
    + destruct (is_Exception e); reflexivity.
  - intros resp c rest -> Hresp Hchoices. cbn [negb].
    rewrite Hresp, Hchoices. split; reflexivity.
Qed.

Lemma completion_request_contract_witness :
  result (call_openai (online_world (Some "Plant maize in May."))
            "What should I plant?" initial_session)
    = Return (Some "Plant maize in May.") /\
  trace (call_openai (online_world (Some "Plant maize in May."))
           "What should I plant?" initial_session)
    = [CompletionRequest (request_for "What should I plant?")].
Proof.
  apply (proj2 (proj2 (proj2
           (completion_request_contract
              (online_world (Some "Plant maize in May."))
              "What should I plant?" initial_session)))
           {| choices := [Some "Plant maize in May."] |}
           (Some "Plant maize in May.") []);
    reflexivity.
Defined.

(** ** The weather adapter *)

Lemma round_half_even_nearest (q : Q) :
  (Qabs (inject_Z (PyObj.round_half_even q) - q) <= 1 # 2)%Q.
Proof.
  unfold PyObj.round_half_even.
  pose proof (Qfloor_le q) as Hlo.
  pose proof (Qlt_floor q) as Hhi.
  rewrite inject_Z_plus in Hhi. change (inject_Z 1) with 1%Q in Hhi.
  apply Qabs_Qle_condition.
  destruct (Qcompare (q - inject_Z (Qfloor q)) (1 # 2)) eqn:Hc.
  - apply Qeq_alt in Hc.
    destruct (Z.even (Qfloor q));
      [|rewrite inject_Z_plus; change (inject_Z 1) with 1%Q]; split; lra.
  - apply Qlt_alt in Hc. split; lra.
  - apply Qgt_alt in Hc. rewrite inject_Z_plus.
    change (inject_Z 1) with 1%Q. split; lra.
Qed.

Lemma round_nearest (t : json) (z : Z) :
  PyObj.round t = Return z -> nearest_integer t z.
Proof.
  destruct t as [ |b|n|[q|neg| ]|x|l|d]; simpl; intros H;
    try discriminate H; injection H as <-; try reflexivity.
  apply round_half_even_nearest.
Qed.

Lemma bind_requests_get_json {A} req (o : http_outcome) (k : json -> M A) s :
  bind (requests_get_json req o) k s =
  after [req]
    match o with
    | GetFails => mkOutcome (Raise ConnectionError) s []
    | JsonFails => mkOutcome (Raise JSONDecodeError) s []
    | Body v => k v s
    end.
Proof. unfold requests_get_json. destruct o; run; reflexivity. Qed.

Lemma try_except_all {A} (body : M (option A)) s :
  try_except body (fun _ => true) (fun _ => ret None) s =
  match body s with
  | mkOutcome (Return a) s' t => mkOutcome (Return a) s' t
  | mkOutcome (Raise _) s' t => mkOutcome (Return None) s' t
  end.
Proof.
  unfold try_except. destruct (body s) as [[a|e] s' t]; simpl; [reflexivity|].
  unfold after, ret. simpl. now rewrite app_nil_r.
Qed.

(** Evaluate the next [lift]ed step; [tac] closes the branch where it
    raises. *)
Ltac eval_lift tac :=
  first
    [ rewrite bind_lift_ret
    | match goal with
      | H : ?r = Return _ |- context [bind (lift ?r) _ _] =>
          rewrite H, bind_lift_ret
      end
    | match goal with
      | |- context [bind (lift ?r) _ _] =>
          destruct r eqn:?; [rewrite bind_lift_ret | rewrite bind_lift_exn; tac]
      end ].

Lemma fetch_weather_cases (w : world) (loc : string) (s : session) :
  let o := fetch_weather w loc s in
  o = mkOutcome (Return None) s [GeoRequest loc] \/
  exists g g0 lat lon,
    geo_direct w loc = Body g /\ PyObj.truthy g = true /\
    PyObj.getitem0 g = Return g0 /\
    PyObj.getitem g0 "lat" = Return lat /\
    PyObj.getitem g0 "lon" = Return lon /\
    (o = mkOutcome (Return None) s [GeoRequest loc; WeatherRequest lat lon] \/
     exists wj m t z hum ws w0 descr ico,
       data_weather w lat lon = Body wj /\
       PyObj.getitem wj "main" = Return m /\
       PyObj.getitem m "temp" = Return t /\
       PyObj.round t = Return z /\
       PyObj.getitem m "humidity" = Return hum /\
       PyObj.getitem wj "weather" = Return ws /\
       PyObj.getitem0 ws = Return w0 /\
       PyObj.getitem w0 "description" = Return descr /\
       PyObj.getitem w0 "icon" = Return ico /\
       o = mkOutcome
             (Return (Some {| temp := z; humidity := hum;
                              description := descr; icon := ico |}))
             s [GeoRequest loc; WeatherRequest lat lon]).
Proof.
  intros o. subst o. unfold fetch_weather.
  rewrite try_except_all, bind_requests_get_json.
  destruct (geo_direct w loc) as [| |g] eqn:Hgeo; try (left; reflexivity).
  destruct (PyObj.truthy g) eqn:Htruthy; cbn [negb]; run;
    [|left; reflexivity].
  repeat eval_lift ltac:(left; reflexivity).
  rewrite bind_requests_get_json.
  right. do 4 eexists. do 5 (split; [first [reflexivity|eassumption]|]).
  destruct (data_weather w _ _) as [| |wj] eqn:Hw; try (left; reflexivity).
  repeat eval_lift ltac:(left; reflexivity).
  right. do 9 eexists. repeat (split; [first [reflexivity|eassumption]|]).
  run. reflexivity.
Qed.

Lemma fetch_weather_shape (w : world) (loc : string) (s : session) :
  exists r t, fetch_weather w loc s = mkOutcome (Return r) s t.
Proof.
  destruct (fetch_weather_cases w loc s) as [H|(g & g0 & lat & lon & _ & _ & _ & _ & _ & [H|H])].
  - eauto.
  - eauto.
  - destruct H as (wj & m & t & z & hum & ws & w0 & descr & ico & H).
    destruct H as (_ & _ & _ & _ & _ & _ & _ & _ & _ & H). eauto.
Qed.

(** C7: the weather fetch always returns to its caller and leaves the
    session alone.  It returns None, without a weather request, when the
    geocoding search yields an empty list, and returns None when the request
    or the JSON decoding fails at either step.  When it returns a snapshot,
    the temperature is an integer nearest to the reported one, and the
    humidity, the description and the icon are the reported values. *)
Theorem fetch_weather_contract (w : world) (loc : string) (s : session) :
  let o := fetch_weather w loc s in
  final o = s /\
  (exists r, result o = Return r) /\
  (geo_direct w loc = Body (JList []) ->
     result o = Return None /\ trace o = [GeoRequest loc]) /\
  (geo_direct w loc = GetFails \/ geo_direct w loc = JsonFails ->
     result o = Return None) /\
  (forall lat lon,
     In (WeatherRequest lat lon) (trace o) ->
     data_weather w lat lon = GetFails \/ data_weather w lat lon = JsonFails ->
     result o = Return None) /\
  (forall snap,
     result o = Return (Some snap) ->
     exists g g0 lat lon wj m t ws w0,
       geo_direct w loc = Body g /\
       PyObj.getitem0 g = Return g0 /\
       PyObj.getitem g0 "lat" = Return lat /\
       PyObj.getitem g0 "lon" = Return lon /\
       trace o = [GeoRequest loc; WeatherRequest lat lon] /\
       data_weather w lat lon = Body wj /\
       PyObj.getitem wj "main" = Return m /\
       PyObj.getitem m "temp" = Return t /\
       nearest_integer t (temp snap) /\
       PyObj.getitem m "humidity" = Return (humidity snap) /\
       PyObj.getitem wj "weather" = Return ws /\
       PyObj.getitem0 ws = Return w0 /\
       PyObj.getitem w0 "description" = Return (description snap) /\
       PyObj.getitem w0 "icon" = Return (icon snap)).
Proof.
  intros o.
  destruct (fetch_weather_cases w loc s)
    as [H|(g & g0 & lat & lon & Hgeo & Htruthy & Hg0 & Hlat & Hlon & H)];
    fold o in H.
  - (* nothing after the geocoding request *)
    rewrite H. cbn [result final trace].
    split; [reflexivity|]. split; [eauto|]. split; [auto|]. split; [auto|].
    split.
    + intros lat lon [Hin|[]]. discriminate Hin.
    + intros snap Hsnap. discriminate Hsnap.
  - destruct (fetch_weather_shape w loc s) as (r & tr & Hshape).
    fold o in Hshape.
    split; [now rewrite Hshape|].
    split; [rewrite Hshape; eexists; reflexivity|].
    split.
    { intros Hempty. rewrite Hgeo in Hempty. injection Hempty as ->.
      discriminate Htruthy. }
    split.
    { intros [Hf|Hf]; rewrite Hgeo in Hf; discriminate Hf. }
    destruct H as [->|(wj & m & t & z & hum & ws & w0 & descr & ico & Hw & Hm
                       & Ht & Hz & Hhum & Hws & Hw0 & Hdescr & Hico & ->)];
      cbn [result final trace].
    + split; [reflexivity|]. intros snap Hsnap. discriminate Hsnap.
    + split.
      * intros lat' lon' [Hin|[Hin|[]]]; [discriminate Hin|].
        injection Hin as <- <-. rewrite Hw. intros [Hf|Hf]; discriminate Hf.
      * intros snap Hsnap. injection Hsnap as <-. cbn [temp humidity description icon].
        exists g, g0, lat, lon, wj, m, t, ws, w0.
        repeat (split; [assumption || reflexivity|]).
        split; [now apply round_nearest|].
        repeat (split; [assumption|]). assumption.
Qed.

Lemma fetch_weather_contract_witness :
  let o := fetch_weather (online_world None) "Austin" initial_session in
  result o = Return (Some sample_weather) /\
  exists g g0 lat lon wj m t ws w0,
    geo_direct (online_world None) "Austin" = Body g /\
    PyObj.getitem0 g = Return g0 /\
    PyObj.getitem g0 "lat" = Return lat /\
    PyObj.getitem g0 "lon" = Return lon /\
    trace o = [GeoRequest "Austin"; WeatherRequest lat lon] /\
    data_weather (online_world None) lat lon = Body wj /\
    PyObj.getitem wj "main" = Return m /\
    PyObj.getitem m "temp" = Return t /\
    nearest_integer t (temp sample_weather) /\
    PyObj.getitem m "humidity" = Return (humidity sample_weather) /\
    PyObj.getitem wj "weather" = Return ws /\
    PyObj.getitem0 ws = Return w0 /\
    PyObj.getitem w0 "description" = Return (description sample_weather) /\
    PyObj.getitem w0 "icon" = Return (icon sample_weather).
Proof.
  split; [reflexivity|].
  apply (proj2 (proj2 (proj2 (proj2 (proj2
           (fetch_weather_contract (online_world None) "Austin"
              initial_session)))))
           sample_weather).
  reflexivity.
Defined.

(** ** Every run is a sequence of abstract transitions *)

Lemma call_openai_shape (w : world) (prompt : string) (s : session) :
  exists r t,
    call_openai w prompt s = mkOutcome r s t /\
    (forall name, r <> Raise (AttributeError name)) /\ no_weather_request t.
Proof.
  rewrite call_openai_cases. unfold no_weather_request.
  destruct (negb (client w));
    [do 2 eexists; split; [reflexivity|split; [discriminate|]];
     repeat constructor|].
  destruct (chat_completions_create w _) as [resp|e].
  - destruct (choices resp);
      do 2 eexists; (split; [reflexivity|split; [discriminate|]]);
      repeat constructor.
  - destruct (is_Exception e) eqn:He;
      do 2 eexists; (split; [reflexivity|split]);
      try discriminate; try (repeat constructor).
    intros name H. injection H as ->. discriminate He.
Qed.

Lemma bind_profile_get_Some {A} field (k : string -> M A) s p :
  profile s = Some p -> bind (profile_get field) k s = k (field p) s.
Proof. intros H. unfold profile_get. run. rewrite H. now run. Qed.

Lemma bind_profile_get_None {A} field (k : string -> M A) s :
  profile s = None ->
  bind (profile_get field) k s = mkOutcome (Raise (AttributeError "get")) s [].
Proof. intros H. unfold profile_get. run. rewrite H. now run. Qed.

Lemma bind_recommendations_append {A} r (k : unit -> M A) s :
  bind (recommendations_append r) k s =
  k tt (with_recommendations (recommendations s ++ [r]) s).
Proof. unfold recommendations_append. now run. Qed.

Lemma bind_chat_history_append {A} m (k : unit -> M A) s :
  bind (chat_history_append m) k s =
  k tt (with_chat_history (chat_history s ++ [m]) s).
Proof. unfold chat_history_append. now run. Qed.

#[local] Hint Rewrite @bind_recommendations_append @bind_chat_history_append
  : script.

Lemma ts_one s s' : transition s s' -> transitions s s'.
Proof. intros H. eapply ts_step; [exact H|apply ts_refl]. Qed.

Lemma ts_trans s1 s2 s3 :
  transitions s1 s2 -> transitions s2 s3 -> transitions s1 s3.
Proof.
  induction 1 as [|a b c Hab Hbc IH]; intros H; [exact H|].
  eapply ts_step; [exact Hab|auto].
Qed.

(** Recognise the final session as no step or one abstract step away. *)
Ltac nav :=
  first
    [ apply ts_refl
    | apply ts_one;
      first
        [ apply tr_create
        | apply tr_sign_out
        | apply tr_clear_chat
        | apply tr_ask
        | apply tr_recommendations
        | apply tr_goto; cbn [profile with_weather_data]; intros; congruence
        | apply tr_update; congruence
        | apply tr_weather; assumption ] ].

(** Unfold the last statement of a script and read off its outcome. *)
Ltac tail :=
  unfold st_error, st_success, st_rerun, st_stop, set_profile,
    set_recommendations, set_chat_history, set_weather_data, set_current_page,
    recommendations_append, chat_history_append;
  run;
  unfold emit, ret, raise, put, get;
  cbn [final result trace after].

Ltac quiet :=
  unfold no_weather_request in *;
  repeat first
    [ apply Forall_nil
    | assumption
    | apply Forall_cons; [reflexivity|]
    | apply Forall_app; split ].

Ltac behaved :=
  solve [split;
         [nav
         | split; intros;
           first [ discriminate | congruence | quiet
                 | match goal with
                   | H : forall name, _ <> Raise (AttributeError name) |- _ =>
                       apply H
                   end ]]].

Ltac case_if :=
  match goal with
  | |- context [if ?b then _ else _] => destruct b eqn:?
  end.

Ltac eval_profile :=
  match goal with
  | Hp : profile _ = Some _ |- context [bind (profile_get _) _ ?s] =>
      rewrite !(bind_profile_get_Some _ _ s _ Hp)
  | Hp : profile _ = None |- context [bind (profile_get _) _ ?s] =>
      rewrite (bind_profile_get_None _ _ s Hp)
  end.

Ltac eval_openai :=
  match goal with
  | |- context [bind (call_openai ?w ?p) _ ?s] =>
      let c := fresh "c" in
      let e := fresh "e" in
      let t := fresh "t" in
      let E := fresh "E" in
      let Hr := fresh "Hr" in
      let Ht := fresh "Ht" in
      destruct (call_openai_shape w p s) as ([c|e] & t & E & Hr & Ht);
      [rewrite (bind_Return _ _ _ _ _ _ E) | rewrite (bind_Raise _ _ _ _ _ _ E)]
  end.

Lemma response_text_Some (c : option string) (r : string) :
  response_text c = Some r -> c = Some r /\ r <> "".
Proof.
  destruct c as [x|]; simpl; [|discriminate].
  destruct x; simpl; [discriminate|].
  intros H. injection H as <-. split; [reflexivity|discriminate].
Qed.

Lemma welcome_page_behaved ev s : well_behaved s (welcome_page ev s).
Proof.
  unfold well_behaved, welcome_page.
  destruct ev; tail; try behaved.
  destruct (profile s) eqn:Hp; behaved.
Qed.

Lemma profile_setup_page_behaved w ev s :
  well_behaved s (profile_setup_page w ev s).
Proof.
  unfold well_behaved, profile_setup_page.
  destruct ev; try (tail; behaved).
  case_if; [|tail; behaved].
  rewrite farm_size_derivation, experience_derivation. tail. behaved.
Qed.

Lemma crop_planner_page_behaved w ev s :
  well_behaved s (crop_planner_page w ev s).
Proof.
  unfold well_behaved, crop_planner_page.
  destruct ev; try (tail; behaved).
  destruct (profile s) as [p|] eqn:Hp; eval_profile; [|tail; behaved].
  eval_openai; [|tail; behaved].
  destruct (response_text c); tail; behaved.
Qed.

Lemma soil_optimizer_page_behaved w ev s :
  well_behaved s (soil_optimizer_page w ev s).
Proof.
  unfold well_behaved, soil_optimizer_page.
  destruct ev; try (tail; behaved).
  destruct (profile s) as [p|] eqn:Hp; eval_profile; [|tail; behaved].
  eval_openai; [|tail; behaved].
  destruct (response_text c); tail; behaved.
Qed.

Lemma pest_identifier_page_behaved w ev s :
  well_behaved s (pest_identifier_page w ev s).
Proof.
  unfold well_behaved, pest_identifier_page.
  destruct ev; try (tail; behaved).
  case_if; [|tail; behaved].
  destruct (profile s) as [p|] eqn:Hp; eval_profile; [|tail; behaved].
  eval_openai; [|tail; behaved].
  destruct (response_text c); tail; behaved.
Qed.

Lemma weather_alerts_page_behaved ev s :
  well_behaved s (weather_alerts_page ev s).
Proof. unfold well_behaved, weather_alerts_page. destruct ev; tail; behaved. Qed.

Lemma cost_tips_page_behaved ev s : well_behaved s (cost_tips_page ev s).
Proof. unfold well_behaved, cost_tips_page. destruct ev; tail; behaved. Qed.

Lemma chat_page_behaved w ev s : well_behaved s (chat_page w ev s).
Proof.
  unfold well_behaved, chat_page.
  destruct ev; try (tail; behaved).
  case_if; [|tail; behaved].
  run.
  destruct (profile s) as [p|] eqn:Hp; eval_profile; [|tail; behaved].
  eval_openai; [|tail; behaved].
  destruct (response_text c) as [r|] eqn:Hr0; [|tail; behaved].
  apply response_text_Some in Hr0. destruct Hr0 as [_ Hr0].
  tail. split; [|split; [discriminate|intros; quiet]].
  eapply ts_step; [apply tr_ask|].
  apply ts_one. eapply tr_answer; [reflexivity|assumption].
Qed.

Lemma history_page_behaved ev s : well_behaved s (history_page ev s).
Proof.
  unfold well_behaved, history_page. run.
  destruct (recommendations s) as [|y l] eqn:Hrecs; [tail; behaved|].
  destruct ev; try (tail; behaved).
  destruct (nth_error _ i) as [r|]; [|tail; behaved].
  unfold recommendations_remove. run.
  destruct (list_remove r _); tail; behaved.
Qed.

Lemma settings_page_behaved ev s : well_behaved s (settings_page ev s).
Proof.
  unfold well_behaved, settings_page. run.
  destruct (profile s) as [p|] eqn:Hp; destruct ev; tail; behaved.
Qed.

(** The weather block of the dashboard, case by case. *)
Lemma dashboard_weather_cached w s p snap :
  weather_data s = Some snap ->
  PyStr.truthy (location p) = true ->
  dashboard_weather w (Some p) s = mkOutcome (Return (Some snap)) s [].
Proof.
  intros Hwd Hloc. unfold dashboard_weather. rewrite Hloc. run.
  rewrite Hwd. reflexivity.
Qed.

Lemma dashboard_weather_fetches w s p r t :
  weather_data s = None ->
  PyStr.truthy (location p) = true ->
  fetch_weather w (location p) s = mkOutcome (Return r) s t ->
  dashboard_weather w (Some p) s =
  mkOutcome (Return r)
    match r with
    | Some snap => with_weather_data (Some snap) s
    | None => s
    end t.
Proof.
  intros Hwd Hloc Hfetch. unfold dashboard_weather. rewrite Hloc. run.
  rewrite Hwd, (bind_Return _ _ _ _ _ _ Hfetch).
  destruct r as [snap|]; tail; unfold after; cbn [result final trace];
    now rewrite app_nil_r.
Qed.

Lemma dashboard_weather_idle w s prof :
  match prof with
  | Some p => PyStr.truthy (location p) = false
  | None => True
  end ->
  dashboard_weather w prof s = mkOutcome (Return None) s [].
Proof.
  unfold dashboard_weather. destruct prof as [p|]; [|reflexivity].
  intros ->. reflexivity.
Qed.

Lemma dashboard_weather_shape w s prof :
  exists r s' t,
    dashboard_weather w prof s = mkOutcome (Return r) s' t /\
    (s' = s /\ (weather_data s <> None -> t = []) \/
     weather_data s = None /\
     exists snap, s' = with_weather_data (Some snap) s).
Proof.
  destruct prof as [p|];
    [|exists None, s, []; split;
      [now apply dashboard_weather_idle|left; split; auto]].
  destruct (PyStr.truthy (location p)) eqn:Hloc;
    [|exists None, s, []; split;
      [now apply dashboard_weather_idle|left; split; auto]].
  destruct (weather_data s) as [snap|] eqn:Hwd.
  - exists (Some snap), s, []. split; [now apply dashboard_weather_cached|].
    left. split; auto.
  - destruct (fetch_weather_shape w (location p) s) as (r & t & Hfetch).
    rewrite (dashboard_weather_fetches w s p r t Hwd Hloc Hfetch).
    do 3 eexists. split; [reflexivity|].
    destruct r as [snap|]; [right; eauto|left; split; [reflexivity|congruence]].
Qed.

Lemma dashboard_metrics_Some p weather s :
  dashboard_metrics (Some p) weather s = mkOutcome (Return tt) s [] \/
  dashboard_metrics (Some p) weather s =
    mkOutcome (Raise (AttributeError "title")) s [].
Proof.
  unfold dashboard_metrics. destruct weather as [wd|]; [|now left].
  destruct (description wd); (now left) || (now right).
Qed.

Ltac eval_metrics :=
  match goal with
  | |- context [bind (dashboard_metrics (Some ?p) ?r) _ ?s] =>
      let Hm := fresh "Hm" in
      destruct (dashboard_metrics_Some p r s) as [Hm|Hm];
      [rewrite (bind_Return _ _ _ _ _ _ Hm) | rewrite (bind_Raise _ _ _ _ _ _ Hm)]
  end.

Lemma dashboard_page_behaved w ev s :
  well_behaved s (dashboard_page w ev s).
Proof.
  unfold well_behaved, dashboard_page. run.
  destruct (dashboard_weather_shape w s (profile s))
    as (r & s' & t & Hdw & Hs').
  destruct (profile s) as [p|] eqn:Hp.
  - destruct (PyStr.split (full_name p)) as [|name rest] eqn:Hname;
      cbn [index0]; run; [tail; behaved|].
    rewrite (bind_Return _ _ _ _ _ _ Hdw).
    destruct Hs' as [[-> Ht]|(Hwd & snap & ->)].
    + eval_metrics; destruct ev; tail;
        (split; [nav|split; [discriminate|]]);
        intros Hc; rewrite (Ht Hc); quiet.
    + eval_metrics; destruct ev; tail;
        (split; [|split; [discriminate|congruence]]);
        (eapply ts_step; [apply tr_weather; assumption|]); nav.
  - run. rewrite (bind_Return _ _ _ _ _ _ Hdw).
    unfold dashboard_metrics. run.
    destruct Hs' as [[-> Ht]|(Hwd & snap & ->)]; tail;
      (split; [nav|split; [congruence|]]);
      [intros Hc; rewrite (Ht Hc); quiet|congruence].
Qed.

Lemma sidebar_cases ev s :
  sidebar ev s = mkOutcome (Return tt) s [] \/
  profile s <> None /\
  exists p, sidebar ev s = mkOutcome (Raise RerunException)
                             (with_current_page p s) [].
Proof.
  unfold sidebar. run.
  destruct (profile s) as [p|] eqn:Hp; [|now left].
  destruct ev; tail; try (now left);
    right; (split; [congruence|eexists; reflexivity]).
Qed.

Lemma route_behaved w ev s : well_behaved s (route w ev s).
Proof.
  unfold route. run.
  destruct (current_page s).
  - apply welcome_page_behaved.
  - apply profile_setup_page_behaved.
  - apply dashboard_page_behaved.
  - apply crop_planner_page_behaved.
  - apply soil_optimizer_page_behaved.
  - apply pest_identifier_page_behaved.
  - apply weather_alerts_page_behaved.
  - apply cost_tips_page_behaved.
  - apply chat_page_behaved.
  - apply history_page_behaved.
  - apply settings_page_behaved.
Qed.

Lemma main_behaved w ev s : well_behaved s (main w ev s).
Proof.
  unfold main.
  destruct (sidebar_cases ev s) as [H|(Hp & p & H)].
  - rewrite (bind_Return _ _ _ _ _ _ H), after_nil. apply route_behaved.
  - rewrite (bind_Raise _ _ _ _ _ _ H).
    split; [cbn [final]; nav|split; [discriminate|intros; quiet]].
Qed.

Lemma step_transitions w ev s : transitions s (step w ev s).
Proof. apply main_behaved. Qed.

(** ** Invariants of the abstract transitions *)

Lemma transition_profile_gate s s' :
  transition s s' -> profile_gate s -> profile_gate s'.
Proof.
  unfold profile_gate.
  destruct 1; cbn; intros Hs Hnone; auto; try discriminate Hnone.
Qed.

Lemma transitions_profile_gate s s' :
  transitions s s' -> profile_gate s -> profile_gate s'.
Proof. induction 1; eauto using transition_profile_gate. Qed.

Lemma transition_keeps_snapshot s s' snap :
  transition s s' -> weather_data s = Some snap -> weather_data s' = Some snap.
Proof. destruct 1; cbn; intros Hwd; congruence. Qed.

Lemma transitions_keep_snapshot s s' snap :
  transitions s s' -> weather_data s = Some snap -> weather_data s' = Some snap.
Proof. induction 1; eauto using transition_keeps_snapshot. Qed.

Lemma answers_paired_app b l1 l2 :
  answers_paired b (l1 ++ l2) =
  answers_paired b l1 && answers_paired (ends_with_user b l1) l2.
Proof.
  revert b. induction l1 as [|m l1 IH]; intros b; simpl; [reflexivity|].
  destruct (msg_role m); rewrite IH; [reflexivity|].
  now rewrite !andb_assoc.
Qed.

Lemma ends_with_user_app b l m :
  ends_with_user b (l ++ [m]) =
  match msg_role m with user => true | assistant => false end.
Proof. revert b. induction l as [|x l IH]; intros b; simpl; auto. Qed.

Lemma transition_transcript_ok s s' :
  transition s s' ->
  transcript_ok (chat_history s) -> transcript_ok (chat_history s').
Proof.
  unfold transcript_ok.
  destruct 1 as [ | | | | | |u|l u r Hl Hr| ]; cbn; intros Hok; auto.
  - rewrite answers_paired_app, Hok. reflexivity.
  - rewrite answers_paired_app, Hok, Hl, ends_with_user_app. cbn.
    apply truthy_nonempty in Hr. now rewrite Hr.
Qed.

Lemma transitions_transcript_ok s s' :
  transitions s s' ->
  transcript_ok (chat_history s) -> transcript_ok (chat_history s').
Proof. induction 1; eauto using transition_transcript_ok. Qed.

Lemma reachable_profile_gate s : reachable s -> profile_gate s.
Proof.
  induction 1 as [|w ev s Hs IH].
  - intros _. now left.
  - eapply transitions_profile_gate; [apply step_transitions|exact IH].
Qed.

Lemma welcome_page_total ev s :
  result (welcome_page ev s) <> Raise (AttributeError "get").
Proof. unfold welcome_page. destruct ev; tail; discriminate. Qed.

Lemma profile_setup_page_total w ev s :
  result (profile_setup_page w ev s) <> Raise (AttributeError "get").
Proof.
  unfold profile_setup_page.
  destruct ev; try (tail; discriminate).
  case_if; [|tail; discriminate].
  rewrite farm_size_derivation, experience_derivation. tail. discriminate.
Qed.

(** ** Single runs, computed *)

Lemma sidebar_passes ev s :
  match ev with
  | SidebarDashboard | SidebarHistory | SidebarChat | SidebarSettings =>
      profile s = None
  | _ => True
  end ->
  sidebar ev s = mkOutcome (Return tt) s [].
Proof.
  intros H. unfold sidebar. run.
  destruct (profile s); [|reflexivity].
  destruct ev; try reflexivity; discriminate H.
Qed.

Lemma main_routes w ev s :
  sidebar ev s = mkOutcome (Return tt) s [] -> main w ev s = route w ev s.
Proof.
  intros H. unfold main. now rewrite (bind_Return _ _ _ _ _ _ H), after_nil.
Qed.

Lemma sign_out_run w s :
  current_page s = settings ->
  main w SignOut s =
  mkOutcome (Raise RerunException)
    (with_current_page welcome (with_profile None s)) [].
Proof.
  intros Hpage. rewrite main_routes by now apply sidebar_passes.
  unfold route. run. rewrite Hpage. unfold settings_page. run.
  destruct (profile s); tail; reflexivity.
Qed.

Lemma get_started_run w s :
  current_page s = welcome ->
  main w GetStarted s =
  mkOutcome (Raise RerunException)
    (with_current_page
       match profile s with None => profile_setup | Some _ => dashboard end s)
    [].
Proof.
  intros Hpage. rewrite main_routes by now apply sidebar_passes.
  unfold route. run. rewrite Hpage. unfold welcome_page. tail. reflexivity.
Qed.

Lemma create_profile_run w s name loc fs crops ex :
  current_page s = profile_setup ->
  name <> "" -> loc <> "" ->
  exists size level,
    first_token_lower (farm_size_label fs) = Return size /\
    first_token_lower (experience_label ex) = Return level /\
    main w (CreateProfile name loc fs crops ex) s =
    mkOutcome (Raise RerunException)
      (with_current_page dashboard
         (with_profile
            (Some {| full_name := name; location := loc; farm_size := size;
                     primary_crops := crops; experience_level := level;
                     created_at := now_isoformat w |}) s))
      [StSuccess (PyStr.check_mark ++ " Profile created successfully!")].
Proof.
  intros Hpage Hname Hloc.
  apply truthy_nonempty in Hname, Hloc.
  do 2 eexists.
  split; [apply farm_size_derivation|].
  split; [apply experience_derivation|].
  rewrite main_routes by now apply sidebar_passes.
  unfold route. run. rewrite Hpage. unfold profile_setup_page.
  rewrite Hname, Hloc, farm_size_derivation, experience_derivation.
  cbn [andb]. tail. reflexivity.
Qed.

Lemma chat_turn_run w s p u :
  profile s = Some p -> u <> "" ->
  let asked :=
    with_chat_history
      (chat_history s ++ [ {| msg_role := user; msg_content := u |} ]) s in
  let answer :=
    call_openai w
      (chat_prompt
         (profile_context (full_name p) (location p) (farm_size p)
            (primary_crops p) (experience_level p)) u) asked in
  final (chat_page w (ChatInput u) s) =
  match result answer with
  | Return (Some r) =>
      if PyStr.truthy r then
        with_chat_history
          (chat_history asked ++ [ {| msg_role := assistant; msg_content := r |} ])
          asked
      else asked
  | _ => asked
  end.
Proof.
  intros Hp Hu asked answer. subst answer asked.
  apply truthy_nonempty in Hu.
  unfold chat_page. rewrite Hu. run. eval_profile.
  eval_openai; rewrite E; cbn [result]; [|tail; reflexivity].
  destruct c as [r|]; cbn [response_text]; [|tail; reflexivity].
  destruct (PyStr.truthy r); tail; reflexivity.
Qed.

(** ** The Delete button of the history page *)

Lemma history_page_delete (s : session) (i : nat) (r : recommendation) :
  nth_error (rev (recommendations s)) i = Some r ->
  history_page (DeleteRecommendation i) s =
  bind (recommendations_remove r) (fun _ => st_rerun) s.
Proof.
  intros Hnth. unfold history_page. run.
  destruct (recommendations s) as [|y l] eqn:Hrecs.
  - destruct i; discriminate Hnth.
  - now rewrite Hnth.
Qed.

(** C3: a record is deleted by the Delete button that the history page
    draws next to it, so the deletion always acts on a record of the
    collection: it removes exactly the first structurally-equal occurrence
    and touches nothing else.  A button that has no record (none is drawn for
    a record that is not in the collection) changes nothing, and no run of
    the page raises ValueError. *)
Theorem delete_recommendation_first_match
    (w : world) (s : session) (i : nat) :
  current_page s = history ->
  let o := main w (DeleteRecommendation i) s in
  result o <> Raise ValueError /\
  profile (final o) = profile s /\
  chat_history (final o) = chat_history s /\
  weather_data (final o) = weather_data s /\
  current_page (final o) = history /\
  (forall r,
     nth_error (rev (recommendations s)) i = Some r ->
     result o = Raise RerunException /\
     exists l1 l2,
       recommendations s = (l1 ++ r :: l2)%list /\ ~ In r l1 /\
       recommendations (final o) = (l1 ++ l2)%list) /\
  (nth_error (rev (recommendations s)) i = None ->
   result o = Return tt /\
   recommendations (final o) = recommendations s).
Proof.
  intros Hpage o. subst o.
  rewrite main_routes by now apply sidebar_passes.
  unfold route. run. rewrite Hpage.
  destruct (nth_error (rev (recommendations s)) i) as [r|] eqn:Hnth.
  - rewrite (history_page_delete s i r Hnth).
    assert (Hin : In r (recommendations s)).
    { apply in_rev. eapply nth_error_In; eauto. }
    destruct (first_occurrence r _ Hin) as (l1 & l2 & Hl & Hnot).
    assert (Hrm : list_remove r (recommendations s) = Some (l1 ++ l2)%list)
      by (rewrite Hl; now apply list_remove_first).
    unfold recommendations_remove. run. rewrite Hrm. tail.
    cbn [profile recommendations chat_history weather_data current_page
         with_recommendations].
    split; [discriminate|]. repeat (split; [reflexivity|]).
    split; [exact Hpage|]. split; [|discriminate].
    intros r' Hr'. injection Hr' as <-. split; [reflexivity|].
    exists l1, l2. auto.
  - assert (Hidle : history_page (DeleteRecommendation i) s =
                    mkOutcome (Return tt) s []).
    { unfold history_page. run. rewrite Hnth.
      now destruct (recommendations s). }
    rewrite Hidle. cbn [result final].
    split; [discriminate|]. repeat (split; [reflexivity|]).
    split; [exact Hpage|]. split; [discriminate|].
    intros _. split; reflexivity.
Qed.

Lemma delete_recommendation_first_match_witness :
  let older := {| rec_type := "soil_optimizer"; rec_title := "Soil Health Analysis";
                  rec_response := "Add lime.";
                  rec_created_at := "2024-05-30T08:00:00.000000" |} in
  let s := with_recommendations
             [sample_recommendation; older; sample_recommendation]
             (sample_session history) in
  let o := main offline_world (DeleteRecommendation 0) s in
  result o = Raise RerunException /\
  exists l1 l2,
    recommendations s = (l1 ++ sample_recommendation :: l2)%list /\
    ~ In sample_recommendation l1 /\
    recommendations (final o) = (l1 ++ l2)%list.
Proof.
  refine (proj1 (proj2 (proj2 (proj2 (proj2 (proj2
            (delete_recommendation_first_match offline_world
               (with_recommendations
                  [sample_recommendation;
                   {| rec_type := "soil_optimizer";
                      rec_title := "Soil Health Analysis";
                      rec_response := "Add lime.";
                      rec_created_at := "2024-05-30T08:00:00.000000" |};
                   sample_recommendation]
                  (sample_session history)) 0 eq_refl))))))
            sample_recommendation _).
  reflexivity.
Defined.

(** ** A blank name *)

Lemma split_from_step (tok : option string) (c1 : ascii) (r1 : string) :
  PyStr.split_from tok (String c1 r1) =
  match skip_space (String c1 r1) with
  | Some rest => PyStr.close tok (PyStr.split_from None rest)
  | None => PyStr.split_from (PyStr.extend tok c1) r1
  end.
Proof.
  destruct r1 as [|c2 [|c3 r3]]; unfold skip_space;
    destruct (PyStr.isspace c1) eqn:E1;
    try destruct (PyStr.isspace2 c1 c2) eqn:E2;
    try destruct (PyStr.isspace3 c1 c2 c3) eqn:E3;
    simpl; rewrite ?E1, ?E2, ?E3; reflexivity.
Qed.

Lemma blank_step (c1 : ascii) (r1 : string) :
  PyStr.blank (String c1 r1) =
  match skip_space (String c1 r1) with
  | Some rest => PyStr.blank rest
  | None => false
  end.
Proof.
  destruct r1 as [|c2 [|c3 r3]]; unfold skip_space;
    destruct (PyStr.isspace c1) eqn:E1;
    try destruct (PyStr.isspace2 c1 c2) eqn:E2;
    try destruct (PyStr.isspace3 c1 c2 c3) eqn:E3;
    simpl; rewrite ?E1, ?E2, ?E3; reflexivity.
Qed.

Lemma skip_space_shorter (s rest : string) :
  skip_space s = Some rest -> (String.length rest < String.length s)%nat.
Proof.
  destruct s as [|c1 [|c2 [|c3 r3]]]; unfold skip_space;
    try destruct (PyStr.isspace c1);
    try destruct (PyStr.isspace2 c1 c2);
    try destruct (PyStr.isspace3 c1 c2 c3);
    intros H; try discriminate H; injection H as <-; simpl; lia.
Qed.

Lemma split_from_Some (s t : string) : PyStr.split_from (Some t) s <> [].
Proof.
  revert t. induction s as [|c1 r1 IH]; intros t; [discriminate|].
  rewrite split_from_step.
  destruct (skip_space (String c1 r1)); [discriminate|apply IH].
Qed.

Lemma split_nil (s : string) : PyStr.split s = [] <-> PyStr.blank s = true.
Proof.
  unfold PyStr.split.
  remember (String.length s) as n eqn:Hn.
  assert (Hle : (String.length s <= n)%nat) by lia. clear Hn.
  revert s Hle. induction n as [|n IH]; intros s Hle.
  - destruct s; [simpl; tauto|simpl in Hle; lia].
  - destruct s as [|c1 r1]; [simpl; tauto|].
    rewrite split_from_step, blank_step.
    destruct (skip_space (String c1 r1)) as [rest|] eqn:Hskip.
    + apply skip_space_shorter in Hskip. apply IH. lia.
    + split; [|discriminate]. intros H. now apply split_from_Some in H.
Qed.

(** C1: the form accepts a name that is not empty but made of white space
    only (empty after trimming), stores it and moves to the dashboard; the
    dashboard then fails with IndexError on the first word of the name, in
    the run that follows and in every later one. *)
Theorem blank_name_breaks_dashboard
    (w : world) (s : session) (name loc crops : string)
    (fs : farm_size_option) (ex : experience_option) :
  current_page s = profile_setup ->
  name <> "" -> PyStr.blank name = true -> loc <> "" ->
  let o := main w (CreateProfile name loc fs crops ex) s in
  result o = Raise RerunException /\
  trace o = [StSuccess (PyStr.check_mark ++ " Profile created successfully!")] /\
  (exists p, profile (final o) = Some p /\ full_name p = name) /\
  current_page (final o) = dashboard /\
  (forall w', result (main w' NoInput (final o)) = Raise IndexError) /\
  (forall w' ev, result (dashboard_page w' ev (final o)) = Raise IndexError).
Proof.
  intros Hpage Hname Hblank Hloc o.
  destruct (create_profile_run w s name loc fs crops ex Hpage Hname Hloc)
    as (size & level & _ & _ & Hrun).
  fold o in Hrun. rewrite Hrun. cbn [result trace final].
  split; [reflexivity|]. split; [reflexivity|].
  split; [eexists; split; reflexivity|]. split; [reflexivity|].
  assert (Hdash : forall w' ev,
            result (dashboard_page w' ev
                      (with_current_page dashboard
                         (with_profile
                            (Some {| full_name := name; location := loc;
                                     farm_size := size; primary_crops := crops;
                                     experience_level := level;
                                     created_at := now_isoformat w |}) s)))
            = Raise IndexError).
  { intros w' ev. unfold dashboard_page. run.
    cbn [profile with_current_page with_profile full_name].
    apply split_nil in Hblank. rewrite Hblank. reflexivity. }
  split; [|exact Hdash].
  intros w'. rewrite main_routes by now apply sidebar_passes.
  unfold route. run. apply Hdash.
Qed.

Lemma blank_name_breaks_dashboard_witness :
  let o := main offline_world
             (CreateProfile " " "Austin" FarmSmall "Corn" ExpBeginner)
             (with_current_page profile_setup initial_session) in
  result o = Raise RerunException /\
  trace o = [StSuccess (PyStr.check_mark ++ " Profile created successfully!")] /\
  (exists p, profile (final o) = Some p /\ full_name p = " ") /\
  current_page (final o) = dashboard /\
  (forall w', result (main w' NoInput (final o)) = Raise IndexError) /\
  (forall w' ev, result (dashboard_page w' ev (final o)) = Raise IndexError).
Proof.
  apply (blank_name_breaks_dashboard offline_world
           (with_current_page profile_setup initial_session)
           " " "Austin" "Corn" FarmSmall ExpBeginner);
    first [reflexivity | discriminate].
Defined.

(** ** The chat transcript *)

(** C4, as stated, fails: a completion that succeeds with an empty content
    leaves the user message without an assistant message. *)
Lemma empty_completion_is_not_recorded :
  let w := online_world (Some "") in
  let s := sample_session chat in
  let asked :=
    with_chat_history
      (chat_history s ++ [ {| msg_role := user; msg_content := "And maize?" |} ])
      s in
  result (call_openai w
            (chat_prompt
               (profile_context "Ada Farmer" "Austin" "small" "Corn" "beginner")
               "And maize?") asked) = Return (Some "") /\
  chat_history (final (chat_page w (ChatInput "And maize?") s)) =
  (chat_history s ++ [ {| msg_role := user; msg_content := "And maize?" |} ])%list.
Proof. split; reflexivity. Qed.

(** C4 (amended): a chat turn appends the user message and then exactly one
    assistant message, holding the returned content, when the completion
    request returns a non-empty content; it appends nothing after the user
    message when the request fails or returns an empty or null content.  In
    every reachable transcript each assistant message has a non-empty content
    and comes directly after a user message. *)
Theorem chat_transcript_pairing :
  (forall w s p u,
     profile s = Some p -> u <> "" ->
     let asked :=
       (chat_history s ++ [ {| msg_role := user; msg_content := u |} ])%list in
     let answer :=
       call_openai w
         (chat_prompt
            (profile_context (full_name p) (location p) (farm_size p)
               (primary_crops p) (experience_level p)) u)
         (with_chat_history asked s) in
     chat_history (final (chat_page w (ChatInput u) s)) =
     (asked ++
      match result answer with
      | Return (Some r) =>
          if PyStr.truthy r
          then [ {| msg_role := assistant; msg_content := r |} ]
          else []
      | _ => []
      end)%list) /\
  (forall s, reachable s -> transcript_ok (chat_history s)).
Proof.
  split.
  - intros w s p u Hp Hu asked answer.
    rewrite (chat_turn_run w s p u Hp Hu). fold asked. fold answer.
    destruct (result answer) as [[r|]|e]; cbn [chat_history];
      try (now rewrite app_nil_r).
    destruct (PyStr.truthy r); [reflexivity|].
    cbn [chat_history with_chat_history]. now rewrite app_nil_r.
  - induction 1 as [|w ev s Hs IH]; [reflexivity|].
    eapply transitions_transcript_ok; [apply step_transitions|exact IH].
Qed.

Lemma chat_transcript_pairing_witness :
  chat_history
    (final (chat_page (online_world (Some "Sow it in May."))
              (ChatInput "And maize?") (sample_session chat))) =
  [ {| msg_role := user; msg_content := "When to sow?" |};
    {| msg_role := assistant; msg_content := "In spring." |};
    {| msg_role := user; msg_content := "And maize?" |};
    {| msg_role := assistant; msg_content := "Sow it in May." |} ].
Proof.
  refine (proj1 chat_transcript_pairing (online_world (Some "Sow it in May."))
            (sample_session chat) sample_profile "And maize?" eq_refl _).
  discriminate.
Defined.

(** ** The profile gate *)

(** C9: in every reachable session an absent profile means that the current
    page is welcome or profile_setup; hence a page that reads the profile
    without testing it is current only when a profile is present, and no run
    started from a reachable session raises the AttributeError of a [.get]
    on a missing profile. *)
Theorem profile_gate_invariant (s : session) :
  reachable s ->
  (profile s = None ->
   current_page s = welcome \/ current_page s = profile_setup) /\
  (In (current_page s)
      [dashboard; crop_planner; soil_optimizer; pest_identifier; chat] ->
   profile s <> None) /\
  (forall w ev, result (main w ev s) <> Raise (AttributeError "get")).
Proof.
  intros Hreach. pose proof (reachable_profile_gate s Hreach) as Hgate.
  split; [exact Hgate|]. split.
  - intros Hin Hnone. destruct (Hgate Hnone) as [Hp|Hp]; rewrite Hp in Hin;
      simpl in Hin; intuition discriminate.
  - intros w ev. destruct (profile s) as [p|] eqn:Hp.
    + apply main_behaved. congruence.
    + rewrite main_routes.
      * unfold route. run.
        destruct (Hgate Hp) as [Hpage|Hpage]; rewrite Hpage.
        -- apply welcome_page_total.
        -- apply profile_setup_page_total.
      * apply sidebar_passes. now destruct ev.
Qed.

Lemma profile_gate_invariant_witness :
  let s := step offline_world GetStarted initial_session in
  (profile s = None ->
   current_page s = welcome \/ current_page s = profile_setup) /\
  (In (current_page s)
      [dashboard; crop_planner; soil_optimizer; pest_identifier; chat] ->
   profile s <> None) /\
  (forall w ev, result (main w ev s) <> Raise (AttributeError "get")).
Proof.
  apply (profile_gate_invariant (step offline_world GetStarted initial_session)).
  apply reachable_step. apply reachable_init.
Defined.

(** ** The weather cache *)

(** C6: with no snapshot cached, the dashboard's request for the weather
    runs the fetch and, when the fetch returns a snapshot, stores it: the
    next request, for any profile and whatever the services would answer,
    returns that very snapshot and sends nothing, and every later run keeps
    it and sends nothing to the weather service (no action of the program
    clears it).  A fetch that returns None stores nothing, so the next
    request fetches again.  The same holds from any session that already has
    a snapshot. *)
Theorem weather_memoized
    (w w' : world) (s : session) (p p' : profile_dict) :
  PyStr.truthy (location p) = true ->
  PyStr.truthy (location p') = true ->
  let first := dashboard_weather w (Some p) s in
  let second := dashboard_weather w' (Some p') (final first) in
  (weather_data s = None ->
   result first = result (fetch_weather w (location p) s) /\
   trace first = trace (fetch_weather w (location p) s) /\
   profile (final first) = profile s /\
   recommendations (final first) = recommendations s /\
   chat_history (final first) = chat_history s /\
   current_page (final first) = current_page s /\
   (forall snap,
      result (fetch_weather w (location p) s) = Return (Some snap) ->
      weather_data (final first) = Some snap /\
      result second = Return (Some snap) /\
      trace second = [] /\
      final second = final first /\
      forall w'' ev,
        weather_data (step w'' ev (final first)) = Some snap /\
        no_weather_request (trace (main w'' ev (final first)))) /\
   (result (fetch_weather w (location p) s) = Return None ->
    weather_data (final first) = None /\
    trace second = trace (fetch_weather w' (location p') (final first)))) /\
  (forall snap,
     weather_data s = Some snap ->
     result first = Return (Some snap) /\
     trace first = [] /\
     final first = s /\
     forall w'' ev,
       weather_data (step w'' ev s) = Some snap /\
       no_weather_request (trace (main w'' ev s))).
Proof.
  intros Hloc Hloc' first second.
  assert (Hcached : forall w0 s0 p0 snap,
            PyStr.truthy (location p0) = true ->
            weather_data s0 = Some snap ->
            dashboard_weather w0 (Some p0) s0 =
              mkOutcome (Return (Some snap)) s0 [] /\
            forall w'' ev,
              weather_data (step w'' ev s0) = Some snap /\
              no_weather_request (trace (main w'' ev s0))).
  { intros w0 s0 p0 snap Hl Hwd. split; [now apply dashboard_weather_cached|].
    intros w'' ev. split.
    - eapply transitions_keep_snapshot; [apply step_transitions|exact Hwd].
    - apply main_behaved. congruence. }
  split.
  - intros Hwd.
    destruct (fetch_weather_shape w (location p) s) as (r & t & Hfetch).
    assert (Hfirst : first =
              mkOutcome (Return r)
                match r with
                | Some snap => with_weather_data (Some snap) s
                | None => s
                end t).
    { subst first. now apply dashboard_weather_fetches. }
    rewrite Hfetch. cbn [result trace].
    assert (Hfinal : final first =
                     match r with
                     | Some snap => with_weather_data (Some snap) s
                     | None => s
                     end) by now rewrite Hfirst.
    split; [now rewrite Hfirst|]. split; [now rewrite Hfirst|].
    split; [rewrite Hfinal; now destruct r|].
    split; [rewrite Hfinal; now destruct r|].
    split; [rewrite Hfinal; now destruct r|].
    split; [rewrite Hfinal; now destruct r|].
    split.
    + intros snap Hr. injection Hr as ->.
      assert (Hstored : weather_data (final first) = Some snap)
        by now rewrite Hfinal.
      destruct (Hcached w' (final first) p' snap Hloc' Hstored) as [Hsecond Hlater].
      fold second in Hsecond. rewrite Hsecond. cbn [result trace final].
      repeat (split; [reflexivity|]). split; [exact Hstored|].
      split; [reflexivity|]. split; [reflexivity|]. split; [reflexivity|].
      exact Hlater.
    + intros Hr. injection Hr as ->.
      assert (Hempty : weather_data (final first) = None)
        by (rewrite Hfinal; exact Hwd).
      split; [exact Hempty|].
      destruct (fetch_weather_shape w' (location p') (final first))
        as (r' & t' & Hfetch').
      subst second.
      rewrite (dashboard_weather_fetches w' (final first) p' r' t'
                 Hempty Hloc' Hfetch'), Hfetch'.
      reflexivity.
  - intros snap Hwd.
    destruct (Hcached w s p snap Hloc Hwd) as [Hfirst Hlater].
    fold first in Hfirst. rewrite Hfirst. cbn [result trace final].
    repeat (split; [reflexivity|]). exact Hlater.
Qed.

Lemma weather_memoized_witness :
  let s := with_weather_data None (sample_session dashboard) in
  let first := dashboard_weather (online_world None) (Some sample_profile) s in
  let second := dashboard_weather offline_world (Some sample_profile) (final first) in
  weather_data (final first) = Some sample_weather /\
  result second = Return (Some sample_weather) /\
  trace second = [] /\
  final second = final first /\
  forall w'' ev,
    weather_data (step w'' ev (final first)) = Some sample_weather /\
    no_weather_request (trace (main w'' ev (final first))).
Proof.
  refine (proj1 (proj2 (proj2 (proj2 (proj2 (proj2 (proj2
            (proj1 (weather_memoized (online_world None) offline_world
                      (with_weather_data None (sample_session dashboard))
                      sample_profile sample_profile eq_refl eq_refl)
               eq_refl)))))))
            sample_weather _).
  reflexivity.
Defined.

(** C10: signing out leaves the cached snapshot in place; after a new
    profile is created, with any non-empty location, the dashboard still
    returns the snapshot cached before, and no run sends a request to the
    weather service. *)
Theorem sign_out_keeps_weather_cache
    (w1 w2 w3 w4 : world) (s : session) (snap : weather_dict)
    (name loc crops : string) (fs : farm_size_option) (ex : experience_option)
    (ev : event) :
  current_page s = settings ->
  weather_data s = Some snap ->
  name <> "" -> loc <> "" ->
  let s1 := step w1 SignOut s in
  let s2 := step w2 GetStarted s1 in
  let s3 := step w3 (CreateProfile name loc fs crops ex) s2 in
  profile s1 = None /\ weather_data s1 = Some snap /\
  (exists p,
     profile s3 = Some p /\ location p = loc /\ current_page s3 = dashboard /\
     dashboard_weather w4 (Some p) s3 = mkOutcome (Return (Some snap)) s3 []) /\
  weather_data (step w4 ev s3) = Some snap /\
  no_weather_request (trace (main w4 ev s3)).
Proof.
  intros Hpage Hwd Hname Hloc s1 s2 s3.
  assert (Hs1 : s1 = with_current_page welcome (with_profile None s)).
  { subst s1. unfold step. now rewrite sign_out_run. }
  assert (Hs2 : s2 = with_current_page profile_setup s1).
  { subst s2. unfold step. rewrite get_started_run; rewrite Hs1; reflexivity. }
  destruct (create_profile_run w3 s2 name loc fs crops ex)
    as (size & level & _ & _ & Hrun); auto.
  { rewrite Hs2. reflexivity. }
  assert (Hs3 : s3 = with_current_page dashboard
                       (with_profile
                          (Some {| full_name := name; location := loc;
                                   farm_size := size; primary_crops := crops;
                                   experience_level := level;
                                   created_at := now_isoformat w3 |}) s2)).
  { subst s3. unfold step. now rewrite Hrun. }
  assert (Hwd3 : weather_data s3 = Some snap).
  { rewrite Hs3, Hs2, Hs1. exact Hwd. }
  split; [now rewrite Hs1|]. split; [now rewrite Hs1|]. split.
  - eexists. split; [rewrite Hs3; reflexivity|].
    split; [reflexivity|]. split; [now rewrite Hs3|].
    apply dashboard_weather_cached; [exact Hwd3|].
    now apply truthy_nonempty.
  - split.
    + eapply transitions_keep_snapshot; [apply step_transitions|exact Hwd3].
    + apply main_behaved. congruence.
Qed.

Lemma sign_out_keeps_weather_cache_witness :
  let s1 := step offline_world SignOut (sample_session settings) in
  let s2 := step offline_world GetStarted s1 in
  let s3 := step offline_world
              (CreateProfile "Bo" "Oslo" FarmLarge "Rye" ExpExperienced) s2 in
  profile s1 = None /\ weather_data s1 = Some sample_weather /\
  (exists p,
     profile s3 = Some p /\ location p = "Oslo" /\ current_page s3 = dashboard /\
     dashboard_weather offline_world (Some p) s3 =
       mkOutcome (Return (Some sample_weather)) s3 []) /\
  weather_data (step offline_world NoInput s3) = Some sample_weather /\
  no_weather_request (trace (main offline_world NoInput s3)).
Proof.
  apply (sign_out_keeps_weather_cache offline_world offline_world offline_world
           offline_world (sample_session settings) sample_weather
           "Bo" "Oslo" "Rye" FarmLarge ExpExperienced NoInput);
    first [reflexivity | discriminate].
Defined.

(** * Further properties of the program *)

Ltac fields :=
  cbn [profile recommendations chat_history weather_data current_page
       with_profile with_recommendations with_chat_history with_weather_data
       with_current_page] in *.

(** ** The completion gateway on failure *)

(** Without a client the gateway halts the script before any request; with
    a client, a failing request or a response without choices is reported
    and halts the script as well.  The gateway returns to its caller only
    with the content of a first choice. *)
Theorem call_openai_failure_modes
    (w : world) (prompt : string) (s : session) :
  let o := call_openai w prompt s in
  (client w = false ->
   o = mkOutcome (Raise StopException) s
         [StError "Please configure your OpenAI API key in secrets."]) /\
  (forall e,
     client w = true ->
     chat_completions_create w (request_for prompt) = Raise e ->
     is_Exception e = true ->
     o = mkOutcome (Raise StopException) s
           [CompletionRequest (request_for prompt);
            StError ("API Error: " ++ exn_str e);
            StError "Please check your API key and try again."]) /\
  (forall resp,
     client w = true ->
     chat_completions_create w (request_for prompt) = Return resp ->
     choices resp = [] ->
     o = mkOutcome (Raise StopException) s
           [CompletionRequest (request_for prompt);
            StError "API Error: list index out of range";
            StError "Please check your API key and try again."]) /\
  (forall c,
     result o = Return c ->
     client w = true /\
     exists resp rest,
       chat_completions_create w (request_for prompt) = Return resp /\
       choices resp = c :: rest).
Proof.
  intros o. subst o. rewrite call_openai_cases.
  split; [intros ->; reflexivity|].
  split; [intros e -> -> ->; reflexivity|].
  split; [intros resp -> -> ->; reflexivity|].
  intros c. destruct (client w); cbn [negb]; [|discriminate].
  destruct (chat_completions_create w _) as [resp|e].
  - destruct (choices resp) as [|c' rest] eqn:Hch; [discriminate|].
    intros H. injection H as ->. split; [reflexivity|]. eauto.
  - destruct (is_Exception e); discriminate.
Qed.

Lemma call_openai_failure_modes_witness :
  call_openai offline_world "What should I plant?" initial_session =
  mkOutcome (Raise StopException) initial_session
    [StError "Please configure your OpenAI API key in secrets."].
Proof.
  apply (proj1 (call_openai_failure_modes offline_world
                  "What should I plant?" initial_session)).
  reflexivity.
Defined.

(** ** What the advisory pages store *)

Ltac eval_answer :=
  match goal with
  | |- context [bind (call_openai ?w ?p) _ ?s] =>
      let r := fresh "r" in
      let t := fresh "t" in
      let E := fresh "E" in
      destruct (call_openai_shape w p s) as (r & t & E & _ & _);
      rewrite E in *; cbn [result trace];
      destruct r as [r|r];
      [rewrite (bind_Return _ _ _ _ _ _ E) | rewrite (bind_Raise _ _ _ _ _ _ E)]
  end.

(** A submitted crop form stores exactly one record, of type crop_planner
    and titled after the month, when the gateway returns a non-empty text;
    when the gateway returns an empty text or halts the script, the session
    is left as it was. *)
Theorem crop_planner_commit
    (w : world) (s : session) (p : profile_dict) (month weather soil : string) :
  profile s = Some p ->
  let answer :=
    call_openai w
      (crop_prompt (location p) month weather soil (farm_size p)
         (primary_crops p) (experience_level p)) s in
  let o := crop_planner_page w (SubmitCrop month weather soil) s in
  profile (final o) = profile s /\
  chat_history (final o) = chat_history s /\
  weather_data (final o) = weather_data s /\
  current_page (final o) = current_page s /\
  match result answer with
  | Return c =>
      result o = Return tt /\
      match response_text c with
      | Some r =>
          recommendations (final o) =
            (recommendations s ++
             [ {| rec_type := "crop_planner";
                  rec_title := "Crop Recommendations for " ++ month;
                  rec_response := r;
                  rec_created_at := now_isoformat w |} ])%list /\
          trace o =
            (trace answer ++
             [StSuccess (PyStr.check_mark ++ " Recommendation saved to history!")])%list
      | None =>
          recommendations (final o) = recommendations s /\
          trace o =
            (trace answer ++
             [StError "Failed to get recommendations. Please try again."])%list
      end
  | Raise e =>
      result o = Raise e /\
      recommendations (final o) = recommendations s /\
      trace o = trace answer
  end.
Proof.
  intros Hp answer o. subst answer o.
  unfold crop_planner_page. eval_profile.
  eval_answer; [|cbn [result final trace]; repeat split].
  destruct (response_text r); tail; fields; repeat split.
Qed.

Lemma crop_planner_commit_witness :
  let w := online_world (Some "Plant okra.") in
  let s := sample_session crop_planner in
  let o := crop_planner_page w (SubmitCrop "June" "Hot & Dry" "Loamy") s in
  result o = Return tt /\
  recommendations (final o) =
    [ sample_recommendation;
      {| rec_type := "crop_planner";
         rec_title := "Crop Recommendations for June";
         rec_response := "Plant okra.";
         rec_created_at := "2024-06-01T09:30:00.000000" |} ] /\
  trace o =
    [ CompletionRequest
        (request_for
           (crop_prompt "Austin" "June" "Hot & Dry" "Loamy" "small" "Corn"
              "beginner"));
      StSuccess (PyStr.check_mark ++ " Recommendation saved to history!") ].
Proof.
  exact (proj2 (proj2 (proj2 (proj2
           (crop_planner_commit (online_world (Some "Plant okra."))
              (sample_session crop_planner) sample_profile
              "June" "Hot & Dry" "Loamy" eq_refl))))).
Defined.

(** A submitted soil form stores exactly one record, of type soil_optimizer
    and with the fixed title, when the gateway returns a non-empty text, and
    otherwise leaves the session as it was. *)
Theorem soil_optimizer_commit
    (w : world) (s : session) (p : profile_dict)
    (ph soil_type : string) (problems : list string) :
  profile s = Some p ->
  let answer :=
    call_openai w
      (soil_prompt (location p) (primary_crops p) (farm_size p) ph soil_type
         problems) s in
  let o := soil_optimizer_page w (SubmitSoil ph soil_type problems) s in
  profile (final o) = profile s /\
  chat_history (final o) = chat_history s /\
  weather_data (final o) = weather_data s /\
  current_page (final o) = current_page s /\
  match result answer with
  | Return c =>
      result o = Return tt /\
      match response_text c with
      | Some r =>
          recommendations (final o) =
            (recommendations s ++
             [ {| rec_type := "soil_optimizer";
                  rec_title := "Soil Health Analysis";
                  rec_response := r;
                  rec_created_at := now_isoformat w |} ])%list /\
          trace o =
            (trace answer ++
             [StSuccess (PyStr.check_mark ++ " Analysis saved to history!")])%list
      | None =>
          recommendations (final o) = recommendations s /\
          trace o =
            (trace answer ++
             [StError "Failed to get analysis. Please try again."])%list
      end
  | Raise e =>
      result o = Raise e /\
      recommendations (final o) = recommendations s /\
      trace o = trace answer
  end.
Proof.
  intros Hp answer o. subst answer o.
  unfold soil_optimizer_page. eval_profile.
  eval_answer; [|cbn [result final trace]; repeat split].
  destruct (response_text r); tail; fields; repeat split.
Qed.

Lemma soil_optimizer_commit_witness :
  let w := online_world (Some "") in
  let s := sample_session soil_optimizer in
  let o := soil_optimizer_page w (SubmitSoil "6.5" "Clay" ["Erosion"]) s in
  result o = Return tt /\
  recommendations (final o) = recommendations s /\
  trace o =
    [ CompletionRequest
        (request_for (soil_prompt "Austin" "Corn" "small" "6.5" "Clay" ["Erosion"]));
      StError "Failed to get analysis. Please try again." ].
Proof.
  exact (proj2 (proj2 (proj2 (proj2
           (soil_optimizer_commit (online_world (Some ""))
              (sample_session soil_optimizer) sample_profile
              "6.5" "Clay" ["Erosion"] eq_refl))))).
Defined.

(** The pest form is refused, before the profile is read and before any
    request, when the crop or the symptoms are empty.  Otherwise it stores
    exactly one record, of type pest_identifier and titled after the crop,
    when the gateway returns a non-empty text, and leaves the session as it
    was when it does not. *)
Theorem pest_identifier_commit
    (w : world) (s : session) (crop symptoms : string) :
  let o := pest_identifier_page w (SubmitPest crop symptoms) s in
  (crop = "" \/ symptoms = "" ->
   o = mkOutcome (Return tt) s
         [StError "Please provide crop name and symptoms"]) /\
  (forall p,
     crop <> "" -> symptoms <> "" -> profile s = Some p ->
     let answer :=
       call_openai w (pest_prompt (location p) (farm_size p) crop symptoms) s in
     profile (final o) = profile s /\
     chat_history (final o) = chat_history s /\
     weather_data (final o) = weather_data s /\
     current_page (final o) = current_page s /\
     match result answer with
     | Return c =>
         result o = Return tt /\
         match response_text c with
         | Some r =>
             recommendations (final o) =
               (recommendations s ++
                [ {| rec_type := "pest_identifier";
                     rec_title := "Pest Identification for " ++ crop;
                     rec_response := r;
                     rec_created_at := now_isoformat w |} ])%list /\
             trace o =
               (trace answer ++
                [StSuccess (PyStr.check_mark ++ " Report saved to history!")])%list
         | None =>
             recommendations (final o) = recommendations s /\
             trace o =
               (trace answer ++
                [StError "Failed to identify pest. Please try again."])%list
         end
     | Raise e =>
         result o = Raise e /\
         recommendations (final o) = recommendations s /\
         trace o = trace answer
     end).
Proof.
  intros o. subst o. unfold pest_identifier_page. split.
  - intros [->| ->]; [reflexivity|]. now destruct crop.
  - intros p Hc Hs Hp.
    apply truthy_nonempty in Hc, Hs. rewrite Hc, Hs. cbn [andb].
    eval_profile. eval_answer; [|cbn [result final trace]; repeat split].
    destruct (response_text r); tail; fields; repeat split.
Qed.

Lemma pest_identifier_commit_witness :
  pest_identifier_page offline_world (SubmitPest "Tomatoes" "") initial_session =
  mkOutcome (Return tt) initial_session
    [StError "Please provide crop name and symptoms"].
Proof.
  apply (proj1 (pest_identifier_commit offline_world initial_session
                  "Tomatoes" "")).
  right. reflexivity.
Defined.

(** ** The settings page *)

(** Save Profile replaces the name, the location and the crops by the
    submitted values, whatever they are (empty values included), and keeps
    the farm size, the experience level and the creation time; nothing else
    in the session changes and the page is not left. *)
Theorem save_profile_effect
    (w : world) (s : session) (p : profile_dict) (name loc crops : string) :
  current_page s = settings ->
  profile s = Some p ->
  let o := main w (SaveProfile name loc crops) s in
  result o = Return tt /\
  profile (final o) =
    Some {| full_name := name; location := loc;
            farm_size := farm_size p; primary_crops := crops;
            experience_level := experience_level p;
            created_at := created_at p |} /\
  recommendations (final o) = recommendations s /\
  chat_history (final o) = chat_history s /\
  weather_data (final o) = weather_data s /\
  current_page (final o) = settings /\
  trace o = [StSuccess (PyStr.check_mark ++ " Profile updated!")].
Proof.
  intros Hpage Hp o. subst o.
  rewrite main_routes by now apply sidebar_passes.
  unfold route. run. rewrite Hpage. unfold settings_page. run.
  rewrite Hp. tail. fields. repeat split. exact Hpage.
Qed.

Lemma save_profile_effect_witness :
  let o := main offline_world (SaveProfile "" "" "Rye")
             (sample_session settings) in
  result o = Return tt /\
  profile (final o) =
    Some {| full_name := ""; location := "";
            farm_size := "small"; primary_crops := "Rye";
            experience_level := "beginner";
            created_at := "2024-06-01T09:30:00.000000" |} /\
  recommendations (final o) = recommendations (sample_session settings) /\
  chat_history (final o) = chat_history (sample_session settings) /\
  weather_data (final o) = weather_data (sample_session settings) /\
  current_page (final o) = settings /\
  trace o = [StSuccess (PyStr.check_mark ++ " Profile updated!")].
Proof.
  apply (save_profile_effect offline_world (sample_session settings)
           sample_profile "" "" "Rye"); reflexivity.
Defined.

(** Clear Chat History empties the transcript and nothing else; Clear
    Recommendations empties the collection and nothing else. *)
Theorem clear_buttons_effect (w : world) (s : session) :
  current_page s = settings ->
  let o1 := main w ClearChat s in
  let o2 := main w ClearRecommendations s in
  (result o1 = Return tt /\ chat_history (final o1) = [] /\
   profile (final o1) = profile s /\
   recommendations (final o1) = recommendations s /\
   weather_data (final o1) = weather_data s /\
   current_page (final o1) = settings) /\
  (result o2 = Return tt /\ recommendations (final o2) = [] /\
   profile (final o2) = profile s /\
   chat_history (final o2) = chat_history s /\
   weather_data (final o2) = weather_data s /\
   current_page (final o2) = settings).
Proof.
  intros Hpage o1 o2. subst o1 o2. split.
  - rewrite main_routes by now apply sidebar_passes.
    unfold route. run. rewrite Hpage. unfold settings_page. run.
    destruct (profile s) eqn:Hp; tail; fields; repeat split;
      first [exact Hpage | exact Hp].
  - rewrite main_routes by now apply sidebar_passes.
    unfold route. run. rewrite Hpage. unfold settings_page. run.
    destruct (profile s) eqn:Hp; tail; fields; repeat split;
      first [exact Hpage | exact Hp].
Qed.

Lemma clear_buttons_effect_witness :
  chat_history (final (main offline_world ClearChat (sample_session settings)))
    = [] /\
  recommendations
    (final (main offline_world ClearChat (sample_session settings)))
    = [sample_recommendation].
Proof.
  pose proof (clear_buttons_effect offline_world (sample_session settings)
                eq_refl) as [(_ & H1 & _ & H2 & _) _].
  split; [exact H1|exact H2].
Defined.

(** ** Storing and deleting a record *)

(** Storing a record and then deleting the newest entry restores the
    collection exactly when no equal record was stored before; when an equal
    record was already there, the older one is removed and the new one
    stays at the end.  Nothing else of the session changes. *)
Theorem append_then_delete (s stored : session) (r : recommendation) :
  recommendations stored = (recommendations s ++ [r])%list ->
  let o := history_page (DeleteRecommendation 0) stored in
  result o = Raise RerunException /\
  profile (final o) = profile stored /\
  chat_history (final o) = chat_history stored /\
  weather_data (final o) = weather_data stored /\
  current_page (final o) = current_page stored /\
  (~ In r (recommendations s) ->
   recommendations (final o) = recommendations s) /\
  (forall l1 l2,
     recommendations s = (l1 ++ r :: l2)%list -> ~ In r l1 ->
     recommendations (final o) = (l1 ++ l2 ++ [r])%list).
Proof.
  intros Hstored o.
  assert (Hrun : forall l',
            list_remove r (recommendations s ++ [r]) = Some l' ->
            o = mkOutcome (Raise RerunException)
                  (with_recommendations l' stored) []).
  { intros l' Hrm. subst o.
    rewrite (history_page_delete _ 0 r)
      by (rewrite Hstored; now rewrite rev_unit).
    unfold recommendations_remove. run.
    rewrite Hstored, Hrm. tail. reflexivity. }
  destruct (in_dec recommendation_eq_dec r (recommendations s)) as [Hin|Hnot].
  - destruct (first_occurrence r _ Hin) as (l1 & l2 & Hl & Hfirst).
    rewrite (Hrun (l1 ++ l2 ++ [r])%list)
      by (rewrite Hl, <- app_assoc; cbn [app];
          apply (list_remove_first r l1 (l2 ++ [r]) Hfirst)).
    fields. cbn [result final]. repeat split; [contradiction|].
    intros k1 k2 Hk Hk1. rewrite Hl in Hk.
    pose proof (list_remove_first r l1 l2 Hfirst) as H1.
    pose proof (list_remove_first r k1 k2 Hk1) as H2.
    rewrite Hk in H1. rewrite H1 in H2. injection H2 as H2.
    now rewrite app_assoc, H2, <- app_assoc.
  - rewrite (Hrun (recommendations s))
      by (rewrite (list_remove_first r _ [] Hnot); now rewrite app_nil_r).
    fields. cbn [result final]. repeat split.
    intros l1 l2 Hl _. exfalso. apply Hnot. rewrite Hl.
    apply in_or_app. right. now left.
Qed.

Lemma append_then_delete_witness :
  recommendations
    (final (history_page (DeleteRecommendation 0)
              (with_recommendations
                 (recommendations (sample_session history)
                  ++ [sample_recommendation])
                 (sample_session history)))) =
  ([] ++ [] ++ [sample_recommendation])%list.
Proof.
  apply (proj2 (proj2 (proj2 (proj2 (proj2 (proj2
           (append_then_delete (sample_session history)
              (with_recommendations
                 (recommendations (sample_session history)
                  ++ [sample_recommendation])
                 (sample_session history))
              sample_recommendation eq_refl)))))) [] []).
  - reflexivity.
  - intros [].
Defined.

(** ** Drawing the dashboard *)

(** With a profile stored, drawing the dashboard fails with IndexError
    exactly when the stored name is empty or all white space; it fails before
    the weather is looked at, so the session is untouched and nothing is
    requested. *)
Theorem dashboard_blank_name
    (w : world) (ev : event) (s : session) (p : profile_dict) :
  profile s = Some p ->
  let o := dashboard_page w ev s in
  (result o = Raise IndexError <-> PyStr.blank (full_name p) = true) /\
  (PyStr.blank (full_name p) = true -> final o = s /\ trace o = []).
Proof.
  intros Hp o. subst o. unfold dashboard_page. run. rewrite Hp.
  destruct (PyStr.split (full_name p)) as [|name rest] eqn:Hname;
    cbn [index0]; run.
  - apply split_nil in Hname. split; [tauto|]. intros _. split; reflexivity.
  - assert (Hns : PyStr.blank (full_name p) = false).
    { destruct (PyStr.blank (full_name p)) eqn:Ha; [|reflexivity].
      apply split_nil in Ha. congruence. }
    rewrite Hns. split; [|discriminate].
    split; [|discriminate]. intros H. exfalso. revert H.
    destruct (dashboard_weather_shape w s (Some p))
      as (r & s' & t & Hdw & _).
    rewrite (bind_Return _ _ _ _ _ _ Hdw).
    eval_metrics; destruct ev; tail; discriminate.
Qed.

Lemma dashboard_blank_name_witness :
  let s := with_profile
             (Some {| full_name := "  "; location := "Austin";
                      farm_size := "small"; primary_crops := "";
                      experience_level := "beginner"; created_at := "" |})
             (sample_session dashboard) in
  final (dashboard_page offline_world NoInput s) = s /\
  trace (dashboard_page offline_world NoInput s) = [].
Proof.
  intros s.
  apply (proj2 (dashboard_blank_name offline_world NoInput s _ eq_refl)).
  reflexivity.
Defined.

(** A weather snapshot whose description is not text (the service answered
    with a number, null, a list or an object there) is stored like any other,
    and from then on every drawing of the dashboard stops at the caption with
    the AttributeError of [.title()], whatever the user presses: the tool
    buttons are never reached, nothing is requested and the session, with the
    snapshot in it, stays as it is. *)
Theorem dashboard_description_not_text
    (w : world) (ev : event) (s : session) (p : profile_dict)
    (wd : weather_dict) :
  profile s = Some p ->
  PyStr.blank (full_name p) = false ->
  PyStr.truthy (location p) = true ->
  weather_data s = Some wd ->
  (forall d, description wd <> JStr d) ->
  let o := dashboard_page w ev s in
  result o = Raise (AttributeError "title") /\
  final o = s /\ trace o = [].
Proof.
  intros Hp Hname Hloc Hwd Hd o. subst o. unfold dashboard_page. run.
  rewrite Hp.
  destruct (PyStr.split (full_name p)) as [|name rest] eqn:Hsplit.
  { apply split_nil in Hsplit. congruence. }
  cbn [index0]. run.
  rewrite (bind_Return _ _ _ _ _ _ (dashboard_weather_cached w s p wd Hwd Hloc)).
  unfold dashboard_metrics.
  destruct (description wd) as [| | | |d| |] eqn:Hdesc;
    try (exfalso; apply (Hd d); reflexivity);
    run; tail; repeat split.
Qed.

Lemma dashboard_description_not_text_witness :
  let s := with_weather_data
             (Some {| temp := 20; humidity := JInt 50;
                      description := JNone; icon := JStr "01d" |})
             (sample_session dashboard) in
  result (dashboard_page offline_world ToolCropPlanner s) =
    Raise (AttributeError "title") /\
  final (dashboard_page offline_world ToolCropPlanner s) = s /\
  trace (dashboard_page offline_world ToolCropPlanner s) = [].
Proof.
  intros s.
  apply (dashboard_description_not_text offline_world ToolCropPlanner s
           sample_profile _ eq_refl eq_refl eq_refl eq_refl).
  intros d. discriminate.
Defined.


(** ** The weather adapter, further *)

Lemma fetch_weather_geocoded w loc s g g0 lat lon :
  geo_direct w loc = Body g ->
  PyObj.truthy g = true ->
  PyObj.getitem0 g = Return g0 ->
  PyObj.getitem g0 "lat" = Return lat ->
  PyObj.getitem g0 "lon" = Return lon ->
  exists r,
    fetch_weather w loc s =
    mkOutcome (Return r) s [GeoRequest loc; WeatherRequest lat lon].
Proof.
  intros Hgeo Htruthy Hg0 Hlat Hlon. unfold fetch_weather.
  rewrite try_except_all, bind_requests_get_json, Hgeo, Htruthy.
  cbn [negb]. run.
  rewrite Hg0, bind_lift_ret, Hlat, bind_lift_ret, bind_lift_ret, Hlon,
    bind_lift_ret, bind_requests_get_json.
  destruct (data_weather w lat lon) as [| |wj];
    try (eexists; reflexivity).
  repeat eval_lift ltac:(eexists; reflexivity).
  eexists. run. reflexivity.
Qed.

(** The fetch sends the geocoding request for the given location first and
    at most one more request.  The weather request is sent exactly when the
    geocoding response is truthy and its first element has the keys lat and
    lon, and it carries those two values.  A geocoding response that is an
    object, as the service sends for a refused key, yields None at once. *)
Theorem weather_request_gating (w : world) (loc : string) (s : session) :
  let o := fetch_weather w loc s in
  (exists rest, trace o = GeoRequest loc :: rest /\ (length rest <= 1)%nat) /\
  (forall lat lon,
     In (WeatherRequest lat lon) (trace o) <->
     exists g g0,
       geo_direct w loc = Body g /\ PyObj.truthy g = true /\
       PyObj.getitem0 g = Return g0 /\
       PyObj.getitem g0 "lat" = Return lat /\
       PyObj.getitem g0 "lon" = Return lon) /\
  (forall d,
     geo_direct w loc = Body (JDict d) ->
     o = mkOutcome (Return None) s [GeoRequest loc]).
Proof.
  intros o. split; [|split].
  - destruct (fetch_weather_cases w loc s)
      as [H|(g & g0 & lat & lon & _ & _ & _ & _ & _ & H)]; fold o in H.
    + rewrite H. exists []. split; [reflexivity|apply Nat.le_0_l].
    + exists [WeatherRequest lat lon]. split; [|apply Nat.le_refl].
      destruct H as [->|(? & ? & ? & ? & ? & ? & ? & ? & ? & _ & _ & _ & _ & _
                         & _ & _ & _ & _ & ->)]; reflexivity.
  - intros lat lon. split.
    + intros Hin.
      destruct (fetch_weather_cases w loc s)
        as [H|(g & g0 & lat' & lon' & Hgeo & Ht & Hg0 & Hlat & Hlon & H)];
        fold o in H.
      * rewrite H in Hin. destruct Hin as [Hin|[]]. discriminate Hin.
      * assert (Htr : trace o = [GeoRequest loc; WeatherRequest lat' lon']).
        { destruct H as [->|(? & ? & ? & ? & ? & ? & ? & ? & ? & _ & _ & _ & _
                             & _ & _ & _ & _ & _ & ->)]; reflexivity. }
        rewrite Htr in Hin. destruct Hin as [Hin|[Hin|[]]]; [discriminate Hin|].
        injection Hin as <- <-. eauto 8.
    + intros (g & g0 & Hgeo & Ht & Hg0 & Hlat & Hlon).
      destruct (fetch_weather_geocoded w loc s g g0 lat lon) as (r & Hr); auto.
      fold o in Hr. rewrite Hr. right. now left.
  - intros d Hgeo. subst o. unfold fetch_weather.
    rewrite try_except_all, bind_requests_get_json, Hgeo.
    destruct d as [|kv d]; reflexivity.
Qed.

Lemma weather_request_gating_witness :
  fetch_weather
    {| client := false;
       chat_completions_create := fun _ => Raise (APIError "");
       geo_direct := fun _ =>
         Body (JDict [("cod", JInt 401); ("message", JStr "Invalid API key.")]);
       data_weather := fun _ _ => GetFails;
       now_isoformat := "" |} "Austin" initial_session =
  mkOutcome (Return None) initial_session [GeoRequest "Austin"].
Proof.
  apply (proj2 (proj2 (weather_request_gating
                         {| client := false;
                            chat_completions_create := fun _ => Raise (APIError "");
                            geo_direct := fun _ =>
                              Body (JDict [("cod", JInt 401);
                                           ("message", JStr "Invalid API key.")]);
                            data_weather := fun _ _ => GetFails;
                            now_isoformat := "" |} "Austin" initial_session))
           [("cod", JInt 401); ("message", JStr "Invalid API key.")]).
  reflexivity.
Defined.

(** When the first geocoding result has lat and lon and the weather
    response has main.temp (a number that can be rounded), main.humidity,
    weather[0].description and weather[0].icon, the fetch returns the
    snapshot made of the rounded temperature and the three other values,
    after exactly the two requests. *)
Theorem fetch_weather_complete
    (w : world) (loc : string) (s : session)
    (g g0 lat lon wj m t hum ws w0 descr ico : json) (z : Z) :
  geo_direct w loc = Body g ->
  PyObj.truthy g = true ->
  PyObj.getitem0 g = Return g0 ->
  PyObj.getitem g0 "lat" = Return lat ->
  PyObj.getitem g0 "lon" = Return lon ->
  data_weather w lat lon = Body wj ->
  PyObj.getitem wj "main" = Return m ->
  PyObj.getitem m "temp" = Return t ->
  PyObj.round t = Return z ->
  PyObj.getitem m "humidity" = Return hum ->
  PyObj.getitem wj "weather" = Return ws ->
  PyObj.getitem0 ws = Return w0 ->
  PyObj.getitem w0 "description" = Return descr ->
  PyObj.getitem w0 "icon" = Return ico ->
  fetch_weather w loc s =
  mkOutcome
    (Return (Some {| temp := z; humidity := hum; description := descr;
                     icon := ico |}))
    s [GeoRequest loc; WeatherRequest lat lon].
Proof.
  intros Hgeo Htruthy Hg0 Hlat Hlon Hw Hm Ht Hz Hhum Hws Hw0 Hd Hi.
  unfold fetch_weather.
  rewrite try_except_all, bind_requests_get_json, Hgeo, Htruthy.
  cbn [negb]. run.
  rewrite Hg0, bind_lift_ret, Hlat, bind_lift_ret, bind_lift_ret, Hlon,
    bind_lift_ret, bind_requests_get_json, Hw.
  repeat eval_lift fail.
  run. reflexivity.
Qed.

Lemma fetch_weather_complete_witness :
  fetch_weather (online_world None) "Austin" initial_session =
  mkOutcome (Return (Some sample_weather)) initial_session
    [GeoRequest "Austin";
     WeatherRequest (JFloat (Finite (302672 # 10000)))
                    (JFloat (Finite (-977431 # 10000)))].
Proof.
  apply (fetch_weather_complete (online_world None) "Austin" initial_session
           austin_geo
           (JDict [("name", JStr "Austin");
                   ("lat", JFloat (Finite (302672 # 10000)));
                   ("lon", JFloat (Finite (-977431 # 10000)))])
           (JFloat (Finite (302672 # 10000)))
           (JFloat (Finite (-977431 # 10000)))
           austin_weather
           (JDict [("temp", JFloat (Finite (305 # 10))); ("humidity", JInt 40)])
           (JFloat (Finite (305 # 10))) (JInt 40)
           (JList [JDict [("id", JInt 800); ("main", JStr "Clear");
                          ("description", JStr "clear sky");
                          ("icon", JStr "01d")]])
           (JDict [("id", JInt 800); ("main", JStr "Clear");
                   ("description", JStr "clear sky"); ("icon", JStr "01d")])
           (JStr "clear sky") (JStr "01d") 30);
    reflexivity.
Defined.

(** A temperature that cannot be rounded (a NaN, an infinity, or a value
    that is not a number) makes the fetch return None, after both requests
    were sent. *)
Theorem unroundable_temperature
    (w : world) (loc : string) (s : session)
    (g g0 lat lon wj m t : json) (e : exn) :
  geo_direct w loc = Body g ->
  PyObj.truthy g = true ->
  PyObj.getitem0 g = Return g0 ->
  PyObj.getitem g0 "lat" = Return lat ->
  PyObj.getitem g0 "lon" = Return lon ->
  data_weather w lat lon = Body wj ->
  PyObj.getitem wj "main" = Return m ->
  PyObj.getitem m "temp" = Return t ->
  PyObj.round t = Raise e ->
  fetch_weather w loc s =
  mkOutcome (Return None) s [GeoRequest loc; WeatherRequest lat lon].
Proof.
  intros Hgeo Htruthy Hg0 Hlat Hlon Hw Hm Ht Hz.
  unfold fetch_weather.
  rewrite try_except_all, bind_requests_get_json, Hgeo, Htruthy.
  cbn [negb]. run.
  rewrite Hg0, bind_lift_ret, Hlat, bind_lift_ret, bind_lift_ret, Hlon,
    bind_lift_ret, bind_requests_get_json, Hw.
  rewrite Hm, bind_lift_ret, Ht, bind_lift_ret, Hz, bind_lift_exn.
  reflexivity.
Qed.

Lemma unroundable_temperature_witness :
  fetch_weather
    {| client := false;
       chat_completions_create := fun _ => Raise (APIError "");
       geo_direct := fun _ => Body austin_geo;
       data_weather := fun _ _ =>
         Body (JDict [("main", JDict [("temp", JFloat NaN)])]);
       now_isoformat := "" |} "Austin" initial_session =
  mkOutcome (Return None) initial_session
    [GeoRequest "Austin";
     WeatherRequest (JFloat (Finite (302672 # 10000)))
                    (JFloat (Finite (-977431 # 10000)))].
Proof.
  apply (unroundable_temperature _ "Austin" initial_session
           austin_geo
           (JDict [("name", JStr "Austin");
                   ("lat", JFloat (Finite (302672 # 10000)));
                   ("lon", JFloat (Finite (-977431 # 10000)))])
           (JFloat (Finite (302672 # 10000)))
           (JFloat (Finite (-977431 # 10000)))
           (JDict [("main", JDict [("temp", JFloat NaN)])])
           (JDict [("temp", JFloat NaN)])
           (JFloat NaN) ValueError);
    reflexivity.
Defined.

(** ** Navigation *)

(** With a profile stored, each sidebar button leads to its page from any
    page, before the page itself is drawn: nothing else in the session
    changes and nothing is requested. *)
Theorem sidebar_navigation
    (w : world) (s : session) (ev : event) (pg : page) :
  profile s <> None ->
  In (ev, pg) [ (SidebarDashboard, dashboard); (SidebarHistory, history);
                (SidebarChat, chat); (SidebarSettings, settings) ] ->
  let o := main w ev s in
  result o = Raise RerunException /\
  current_page (final o) = pg /\
  profile (final o) = profile s /\
  recommendations (final o) = recommendations s /\
  chat_history (final o) = chat_history s /\
  weather_data (final o) = weather_data s /\
  trace o = [].
Proof.
  intros Hp Hin o. subst o. unfold main, sidebar. run.
  destruct (profile s) as [p|] eqn:Hprof; [|congruence].
  cbn [In] in Hin.
  destruct Hin as [H|[H|[H|[H|[]]]]]; injection H as <- <-; tail; fields;
    repeat split; exact Hprof.
Qed.

Lemma sidebar_navigation_witness :
  let o := main offline_world SidebarHistory (sample_session crop_planner) in
  result o = Raise RerunException /\
  current_page (final o) = history /\
  profile (final o) = Some sample_profile /\
  recommendations (final o) = [sample_recommendation] /\
  chat_history (final o) = chat_history (sample_session crop_planner) /\
  weather_data (final o) = Some sample_weather /\
  trace o = [].
Proof.
  apply (sidebar_navigation offline_world (sample_session crop_planner)
           SidebarHistory history).
  - discriminate.
  - right. left. reflexivity.
Defined.

(** On the dashboard, with a profile whose name has a token and a cached
    snapshot whose description is text, each tool button leads to its page:
    nothing but the page changes and nothing is requested. *)
Theorem dashboard_tool_navigation
    (w : world) (s : session) (p : profile_dict) (wd : weather_dict)
    (d : string) (ev : event) (pg : page) :
  current_page s = dashboard ->
  profile s = Some p ->
  PyStr.blank (full_name p) = false ->
  weather_data s = Some wd ->
  description wd = JStr d ->
  In (ev, pg) [ (ToolCropPlanner, crop_planner);
                (ToolPestIdentifier, pest_identifier);
                (ToolSoilOptimizer, soil_optimizer);
                (ToolCostTips, cost_tips);
                (ToolWeatherAlerts, weather_alerts);
                (ToolAIAssistant, chat) ] ->
  let o := main w ev s in
  result o = Raise RerunException /\
  current_page (final o) = pg /\
  profile (final o) = profile s /\
  recommendations (final o) = recommendations s /\
  chat_history (final o) = chat_history s /\
  weather_data (final o) = weather_data s /\
  trace o = [].
Proof.
  intros Hpage Hp Hname Hwd Hdesc Hin o. subst o.
  assert (Hside : sidebar ev s = mkOutcome (Return tt) s []).
  { apply sidebar_passes. cbn [In] in Hin.
    destruct Hin as [H|[H|[H|[H|[H|[H|[]]]]]]]; injection H as <- <-; exact I. }
  rewrite (main_routes w ev s Hside).
  unfold route. run. rewrite Hpage. unfold dashboard_page. run. rewrite Hp.
  destruct (PyStr.split (full_name p)) as [|name rest] eqn:Hsplit.
  { apply split_nil in Hsplit. congruence. }
  cbn [index0]. run.
  assert (Hdw : exists r,
            dashboard_weather w (Some p) s = mkOutcome (Return r) s [] /\
            dashboard_metrics (Some p) r s = mkOutcome (Return tt) s []).
  { destruct (PyStr.truthy (location p)) eqn:Hloc.
    - exists (Some wd). split; [now apply dashboard_weather_cached|].
      unfold dashboard_metrics. now rewrite Hdesc.
    - exists None. split; [now apply dashboard_weather_idle|].
      reflexivity. }
  destruct Hdw as (r & Hdw & Hm).
  rewrite (bind_Return _ _ _ _ _ _ Hdw), (bind_Return _ _ _ _ _ _ Hm).
  cbn [In] in Hin.
  destruct Hin as [H|[H|[H|[H|[H|[H|[]]]]]]]; injection H as <- <-; tail;
    fields; repeat split; first [exact Hp | exact Hwd].
Qed.

Lemma dashboard_tool_navigation_witness :
  let o := main offline_world ToolSoilOptimizer (sample_session dashboard) in
  result o = Raise RerunException /\
  current_page (final o) = soil_optimizer /\
  profile (final o) = Some sample_profile /\
  recommendations (final o) = [sample_recommendation] /\
  chat_history (final o) = chat_history (sample_session dashboard) /\
  weather_data (final o) = Some sample_weather /\
  trace o = [].
Proof.
  apply (dashboard_tool_navigation offline_world (sample_session dashboard)
           sample_profile sample_weather "clear sky"
           ToolSoilOptimizer soil_optimizer);
    try reflexivity.
  right. right. left. reflexivity.
Defined.


(** ** What every run keeps and what it may request *)

Lemma external_calls_app (t1 t2 : list effect) :
  external_calls (t1 ++ t2) = (external_calls t1 ++ external_calls t2)%list.
Proof. apply filter_app. Qed.

Lemma call_openai_calls (w : world) (prompt : string) (s : session) :
  exists r t,
    call_openai w prompt s = mkOutcome r s t /\
    (external_calls t = [] \/
     external_calls t = [CompletionRequest (request_for prompt)]).
Proof.
  rewrite call_openai_cases.
  destruct (negb (client w)); [do 2 eexists; split; [reflexivity|now left]|].
  destruct (chat_completions_create w _) as [resp|e].
  - destruct (choices resp); do 2 eexists; (split; [reflexivity|now right]).
  - destruct (is_Exception e); do 2 eexists; (split; [reflexivity|now right]).
Qed.

Lemma fetch_weather_trace_external (w : world) (loc : string) (s : session) :
  external_calls (trace (fetch_weather w loc s)) = trace (fetch_weather w loc s).
Proof.
  destruct (fetch_weather_cases w loc s)
    as [H|(g & g0 & lat & lon & _ & _ & _ & _ & _ & H)].
  - now rewrite H.
  - destruct H as [H|(? & ? & ? & ? & ? & ? & ? & ? & ? & _ & _ & _ & _ & _
                      & _ & _ & _ & _ & H)]; now rewrite H.
Qed.

Lemma list_remove_Permutation r l l' :
  list_remove r l = Some l' -> Permutation l (r :: l').
Proof.
  revert l'. induction l as [|y l IH]; intros l'; simpl; [discriminate|].
  destruct (recommendation_eq_dec y r) as [->|Hne].
  - intros H. injection H as ->. apply Permutation_refl.
  - destruct (list_remove r l) as [l0|]; [|discriminate].
    intros H. injection H as <-.
    eapply Permutation_trans; [apply perm_skip, IH; reflexivity|].
    apply perm_swap.
Qed.

Lemma list_remove_Forall (P : recommendation -> Prop) r l l' :
  list_remove r l = Some l' -> Forall P l -> Forall P l'.
Proof.
  intros Hrm Hall. apply list_remove_Permutation in Hrm.
  eapply Permutation_Forall in Hall; [|exact Hrm].
  now inversion Hall.
Qed.

Lemma dashboard_weather_detail w s prof :
  exists r s' t,
    dashboard_weather w prof s = mkOutcome (Return r) s' t /\
    (s' = s \/ exists snap, s' = with_weather_data (Some snap) s) /\
    (t = [] \/
     weather_data s = None /\
     exists p,
       prof = Some p /\ PyStr.truthy (location p) = true /\
       t = trace (fetch_weather w (location p) s)).
Proof.
  destruct prof as [p|];
    [|exists None, s, []; split;
      [now apply dashboard_weather_idle|split; now left]].
  destruct (PyStr.truthy (location p)) eqn:Hloc;
    [|exists None, s, []; split;
      [now apply dashboard_weather_idle|split; now left]].
  destruct (weather_data s) as [snap|] eqn:Hwd.
  - exists (Some snap), s, []. split; [now apply dashboard_weather_cached|].
    split; now left.
  - destruct (fetch_weather_shape w (location p) s) as (r & t & Hfetch).
    rewrite (dashboard_weather_fetches w s p r t Hwd Hloc Hfetch).
    do 3 eexists. split; [reflexivity|]. split.
    + destruct r as [snap|]; [right; eauto|now left].
    + right. split; [reflexivity|]. exists p. rewrite Hfetch. auto.
Qed.

Ltac split4 := split; [|split; [|split]].

(** Close [calls_ok] for a trace made of alerts and at most the trace of one
    gateway call. *)
Ltac ok_calls :=
  unfold calls_ok;
  rewrite ?external_calls_app;
  cbn [external_calls filter is_external app];
  rewrite ?app_nil_r;
  first
    [ left; reflexivity
    | match goal with
      | Hc : external_calls ?t = [] \/ external_calls ?t = [_], Hpage : current_page _ = _
        |- _ =>
          destruct Hc as [Hc|Hc]; rewrite Hc;
          [ left; reflexivity
          | right; left; split;
            [rewrite Hpage; cbn [In]; tauto | eexists; reflexivity] ]
      end ].

(** Close [session_ok] when the session is the one the run started from, or
    differs from it in a field the invariant does not constrain further. *)
Ltac ok_same :=
  match goal with
  | Hinv : session_ok _ |- session_ok _ =>
      unfold session_ok in *; fields;
      destruct Hinv as (H1 & H2 & H3 & H4);
      split4; first [assumption | intuition congruence]
  end.

Ltac eval_calls :=
  match goal with
  | |- context [bind (call_openai ?w ?p) _ ?s] =>
      let r := fresh "r" in
      let t := fresh "t" in
      let E := fresh "E" in
      let Hc := fresh "Hcalls" in
      destruct (call_openai_calls w p s) as (r & t & E & Hc);
      destruct r as [r|r];
      [rewrite (bind_Return _ _ _ _ _ _ E) | rewrite (bind_Raise _ _ _ _ _ _ E)]
  end.

Lemma session_ok_append (s : session) (r : recommendation) :
  session_ok s -> recommendation_ok r ->
  session_ok (with_recommendations (recommendations s ++ [r]) s).
Proof.
  intros (H1 & H2 & H3 & H4) Hr. unfold session_ok. fields.
  split4; try assumption.
  apply Forall_app. split; [assumption|]. now constructor.
Qed.

Lemma welcome_page_ok w ev s :
  current_page s = welcome -> session_ok s -> run_ok w s (welcome_page ev s).
Proof.
  intros Hpage Hinv. unfold run_ok, welcome_page.
  destruct ev; tail; try (split; [ok_same|ok_calls]).
  split; [|ok_calls].
  assert (Hp : profile s = None) by (apply Hinv; now left).
  rewrite Hp. destruct Hinv as (H1 & H2 & H3 & H4).
  unfold session_ok. fields.
  split4; try assumption. tauto.
Qed.

Lemma profile_setup_page_ok w ev s :
  current_page s = profile_setup -> session_ok s ->
  run_ok w s (profile_setup_page w ev s).
Proof.
  intros Hpage Hinv. unfold run_ok, profile_setup_page.
  destruct ev; try (tail; split; [ok_same|ok_calls]).
  case_if; [|tail; split; [ok_same|ok_calls]].
  rewrite farm_size_derivation, experience_derivation. tail.
  split; [|ok_calls].
  destruct Hinv as (H1 & H2 & H3 & H4). unfold session_ok. fields.
  split4; try assumption.
  - split; [discriminate|]. intros [H|H]; discriminate H.
  - intros p0 H. injection H as <-. split; cbn.
    + destruct farm_size0; tauto.
    + destruct experience; tauto.
Qed.


Ltac ok_append :=
  apply session_ok_append; [assumption|];
  match goal with
  | H : response_text _ = Some _ |- _ =>
      apply response_text_Some in H; destruct H as [_ H]
  end;
  split; [assumption|]; cbn [rec_type rec_title].

Lemma crop_planner_page_ok w ev s :
  current_page s = crop_planner -> session_ok s ->
  run_ok w s (crop_planner_page w ev s).
Proof.
  intros Hpage Hinv. unfold run_ok, crop_planner_page.
  destruct ev; try (tail; split; [ok_same|ok_calls]).
  destruct (profile s) as [p|] eqn:Hp; eval_profile;
    [|tail; split; [ok_same|ok_calls]].
  eval_calls; [|tail; split; [ok_same|ok_calls]].
  destruct (response_text r) as [x|] eqn:Hx; tail;
    (split; [|ok_calls]); [|ok_same].
  ok_append. left. eauto.
Qed.

Lemma soil_optimizer_page_ok w ev s :
  current_page s = soil_optimizer -> session_ok s ->
  run_ok w s (soil_optimizer_page w ev s).
Proof.
  intros Hpage Hinv. unfold run_ok, soil_optimizer_page.
  destruct ev; try (tail; split; [ok_same|ok_calls]).
  destruct (profile s) as [p|] eqn:Hp; eval_profile;
    [|tail; split; [ok_same|ok_calls]].
  eval_calls; [|tail; split; [ok_same|ok_calls]].
  destruct (response_text r) as [x|] eqn:Hx; tail;
    (split; [|ok_calls]); [|ok_same].
  ok_append. right. left. auto.
Qed.

Lemma pest_identifier_page_ok w ev s :
  current_page s = pest_identifier -> session_ok s ->
  run_ok w s (pest_identifier_page w ev s).
Proof.
  intros Hpage Hinv. unfold run_ok, pest_identifier_page.
  destruct ev; try (tail; split; [ok_same|ok_calls]).
  destruct (PyStr.truthy crop) eqn:Hcrop; cbn [andb];
    [|tail; split; [ok_same|ok_calls]].
  case_if; [|tail; split; [ok_same|ok_calls]].
  destruct (profile s) as [p|] eqn:Hp; eval_profile;
    [|tail; split; [ok_same|ok_calls]].
  eval_calls; [|tail; split; [ok_same|ok_calls]].
  destruct (response_text r) as [x|] eqn:Hx; tail;
    (split; [|ok_calls]); [|ok_same].
  ok_append. right. right. split; [reflexivity|].
  exists crop. split; [now apply truthy_nonempty|reflexivity].
Qed.

Lemma weather_alerts_page_ok w ev s :
  session_ok s -> run_ok w s (weather_alerts_page ev s).
Proof.
  intros Hinv. unfold run_ok, weather_alerts_page.
  destruct ev; tail; (split; [ok_same|ok_calls]).
Qed.

Lemma cost_tips_page_ok w ev s :
  session_ok s -> run_ok w s (cost_tips_page ev s).
Proof.
  intros Hinv. unfold run_ok, cost_tips_page.
  destruct ev; tail; (split; [ok_same|ok_calls]).
Qed.

Lemma session_ok_say (s : session) (m : chat_message) :
  session_ok s -> msg_content m <> "" ->
  session_ok (with_chat_history (chat_history s ++ [m]) s).
Proof.
  intros (H1 & H2 & H3 & H4) Hm. unfold session_ok. fields.
  split4; try assumption.
  apply Forall_app. split; [assumption|]. now constructor.
Qed.

Lemma chat_page_ok w ev s :
  current_page s = chat -> session_ok s -> run_ok w s (chat_page w ev s).
Proof.
  intros Hpage Hinv. unfold run_ok, chat_page.
  destruct ev; try (tail; split; [ok_same|ok_calls]).
  destruct (PyStr.truthy user_input) eqn:Hu; [|tail; split; [ok_same|ok_calls]].
  apply truthy_nonempty in Hu.
  pose proof (session_ok_say s {| msg_role := user; msg_content := user_input |}
                Hinv Hu) as Hasked.
  run.
  destruct (profile s) as [p|] eqn:Hp; eval_profile;
    [|tail; split; [exact Hasked|ok_calls]].
  eval_calls; [|tail; split; [exact Hasked|ok_calls]].
  destruct (response_text r) as [x|] eqn:Hx; tail;
    (split; [|ok_calls]); [|exact Hasked].
  apply response_text_Some in Hx. destruct Hx as [_ Hx].
  apply (session_ok_say _ {| msg_role := assistant; msg_content := x |} Hasked Hx).
Qed.

Lemma history_page_ok w ev s :
  session_ok s -> run_ok w s (history_page ev s).
Proof.
  intros Hinv. unfold run_ok, history_page. run.
  destruct (recommendations s) as [|y l] eqn:Hrecs;
    [tail; split; [ok_same|ok_calls]|].
  destruct ev; try (tail; split; [ok_same|ok_calls]).
  destruct (nth_error _ i) as [r|]; [|tail; split; [ok_same|ok_calls]].
  unfold recommendations_remove. run. rewrite Hrecs.
  destruct (list_remove r (y :: l)) as [l'|] eqn:Hrm; tail;
    (split; [|ok_calls]); [|ok_same].
  destruct Hinv as (H1 & H2 & H3 & H4). unfold session_ok. fields.
  split4; try assumption.
  rewrite Hrecs in H3. eapply list_remove_Forall; eauto.
Qed.

Lemma settings_page_ok w ev s :
  current_page s = settings -> session_ok s ->
  run_ok w s (settings_page ev s).
Proof.
  intros Hpage Hinv. unfold run_ok, settings_page. run.
  destruct (profile s) as [p|] eqn:Hp; destruct ev; tail;
    (split; [|ok_calls]); try ok_same;
    destruct Hinv as (H1 & H2 & H3 & H4); unfold session_ok; fields;
    split4; try assumption; try (now constructor);
    try (split; [discriminate|intros [H|H]; congruence]);
    try tauto.
  intros p0 H. injection H as <-. exact (H2 p Hp).
Qed.


Lemma session_ok_cached (s : session) (x : option weather_dict) :
  session_ok s -> session_ok (with_weather_data x s).
Proof. intros Hinv. ok_same. Qed.

Lemma session_ok_goto (s : session) (pg : page) :
  session_ok s -> profile s <> None ->
  pg <> welcome -> pg <> profile_setup ->
  session_ok (with_current_page pg s).
Proof.
  intros (H1 & H2 & H3 & H4) Hp Hw Hs. unfold session_ok. fields.
  split4; try assumption. split; [tauto|]. intros [H|H]; congruence.
Qed.

Lemma dashboard_page_ok w ev s :
  current_page s = dashboard -> session_ok s ->
  run_ok w s (dashboard_page w ev s).
Proof.
  intros Hpage Hinv. unfold run_ok, dashboard_page. run.
  destruct (dashboard_weather_detail w s (profile s))
    as (r & s' & t & Hdw & Hs' & Ht).
  assert (Hinv' : session_ok s').
  { destruct Hs' as [->|(snap & ->)]; [assumption|now apply session_ok_cached]. }
  assert (Hcalls : calls_ok w s t).
  { destruct Ht as [->|(Hwd & p & Hp & Hloc & ->)]; [now left|].
    right. right. split; [assumption|]. split; [assumption|].
    exists p. split; [assumption|]. split; [assumption|].
    apply fetch_weather_trace_external. }
  destruct (profile s) as [p|] eqn:Hp.
  - destruct (PyStr.split (full_name p)) as [|name rest] eqn:Hname;
      cbn [index0]; run; [tail; split; [ok_same|ok_calls]|].
    rewrite (bind_Return _ _ _ _ _ _ Hdw).
    assert (Hp' : profile s' <> None).
    { destruct Hs' as [->|(snap & ->)]; fields; congruence. }
    eval_metrics; destruct ev; tail; rewrite ?app_nil_r;
      (split; [|exact Hcalls]); try exact Hinv';
      apply session_ok_goto; auto; discriminate.
  - run. rewrite (bind_Return _ _ _ _ _ _ Hdw).
    unfold dashboard_metrics. run. tail. rewrite ?app_nil_r.
    split; assumption.
Qed.

Lemma route_ok w ev s : session_ok s -> run_ok w s (route w ev s).
Proof.
  intros Hinv. unfold route. run.
  destruct (current_page s) eqn:Hpage.
  - now apply welcome_page_ok.
  - now apply profile_setup_page_ok.
  - now apply dashboard_page_ok.
  - now apply crop_planner_page_ok.
  - now apply soil_optimizer_page_ok.
  - now apply pest_identifier_page_ok.
  - now apply weather_alerts_page_ok.
  - now apply cost_tips_page_ok.
  - now apply chat_page_ok.
  - now apply history_page_ok.
  - now apply settings_page_ok.
Qed.

Lemma main_ok w ev s : session_ok s -> run_ok w s (main w ev s).
Proof.
  intros Hinv. unfold main, sidebar. run.
  destruct (profile s) as [p|] eqn:Hp;
    [|run; now apply route_ok].
  destruct ev; run; try (now apply route_ok);
    tail; (split; [|now left]);
    apply session_ok_goto; auto; congruence.
Qed.

Lemma initial_session_ok : session_ok initial_session.
Proof.
  unfold session_ok. cbn. split4.
  - split; auto.
  - discriminate.
  - constructor.
  - constructor.
Qed.

Lemma reachable_session_ok s : reachable s -> session_ok s.
Proof.
  induction 1 as [|w ev s Hs IH]; [apply initial_session_ok|].
  apply (main_ok w ev s IH).
Qed.

(** In every reachable session a profile is stored exactly when the current
    page is neither welcome nor profile_setup.  So the welcome page is only
    ever shown without a profile, and its Get Started button always leads to
    profile_setup. *)
Theorem profile_presence_tracks_page (s : session) :
  reachable s ->
  (profile s = None <->
   current_page s = welcome \/ current_page s = profile_setup) /\
  (current_page s = welcome ->
   forall w,
     let o := main w GetStarted s in
     result o = Raise RerunException /\
     current_page (final o) = profile_setup /\
     profile (final o) = None /\
     trace o = []).
Proof.
  intros Hreach. pose proof (reachable_session_ok s Hreach) as (H1 & _).
  split; [exact H1|]. intros Hpage w o. subst o.
  rewrite get_started_run by assumption.
  assert (Hp : profile s = None) by (apply H1; now left).
  rewrite Hp. fields. cbn [result final trace]. repeat split. exact Hp.
Qed.

Lemma profile_presence_tracks_page_witness :
  let s := step offline_world SignOut
             (step offline_world SidebarSettings
                (step offline_world
                   (CreateProfile "Bo" "Oslo" FarmLarge "Rye" ExpExperienced)
                   (step offline_world GetStarted initial_session))) in
  (profile s = None <->
   current_page s = welcome \/ current_page s = profile_setup) /\
  (current_page s = welcome ->
   forall w,
     let o := main w GetStarted s in
     result o = Raise RerunException /\
     current_page (final o) = profile_setup /\
     profile (final o) = None /\
     trace o = []).
Proof.
  apply profile_presence_tracks_page.
  repeat apply reachable_step. apply reachable_init.
Defined.

(** In every reachable session a stored profile has a farm size among
    small, medium, large, very and an experience level among beginner,
    intermediate, experienced: the settings form cannot change them. *)
Theorem stored_profile_categories (s : session) (p : profile_dict) :
  reachable s -> profile s = Some p ->
  In (farm_size p) ["small"; "medium"; "large"; "very"] /\
  In (experience_level p) ["beginner"; "intermediate"; "experienced"].
Proof.
  intros Hreach Hp.
  pose proof (reachable_session_ok s Hreach) as (_ & H2 & _).
  exact (H2 p Hp).
Qed.

Lemma stored_profile_categories_witness :
  In "very" ["small"; "medium"; "large"; "very"] /\
  In "beginner" ["beginner"; "intermediate"; "experienced"].
Proof.
  apply (stored_profile_categories
           (step offline_world (SaveProfile "" "" "")
              (step offline_world SidebarSettings
                 (step offline_world
                    (CreateProfile "Bo" "Oslo" FarmVeryLarge "Rye" ExpBeginner)
                    (step offline_world GetStarted initial_session))))
           {| full_name := ""; location := ""; farm_size := "very";
              primary_crops := ""; experience_level := "beginner";
              created_at := "2024-06-01T09:30:00.000000" |}).
  - repeat apply reachable_step. apply reachable_init.
  - reflexivity.
Defined.


(** In every reachable session no message of the transcript, from the user
    or from the assistant, has an empty content. *)
Theorem transcript_contents_nonempty (s : session) (m : chat_message) :
  reachable s -> In m (chat_history s) -> msg_content m <> "".
Proof.
  intros Hreach Hin.
  pose proof (reachable_session_ok s Hreach) as (_ & _ & _ & H4).
  rewrite Forall_forall in H4. exact (H4 m Hin).
Qed.

(** From a reachable session one run sends no request at all, or exactly
    one completion request and then only from the crop planner, the soil
    optimizer, the pest identifier or the chat, or exactly the requests of
    one weather fetch for the profile's location and then only from the
    dashboard with no snapshot cached. *)
Theorem requests_of_a_run (w : world) (ev : event) (s : session) :
  reachable s ->
  let t := trace (main w ev s) in
  external_calls t = [] \/
  (In (current_page s) [crop_planner; soil_optimizer; pest_identifier; chat] /\
   exists prompt, external_calls t = [CompletionRequest (request_for prompt)]) \/
  (current_page s = dashboard /\ weather_data s = None /\
   exists p,
     profile s = Some p /\ PyStr.truthy (location p) = true /\
     external_calls t = trace (fetch_weather w (location p) s)).
Proof.
  intros Hreach t. apply (main_ok w ev s). now apply reachable_session_ok.
Qed.

Lemma busy_session_reachable : reachable busy_session.
Proof. unfold busy_session. repeat apply reachable_step. apply reachable_init. Qed.

Lemma busy_session_contents :
  recommendations busy_session =
    [ {| rec_type := "crop_planner";
         rec_title := "Crop Recommendations for June";
         rec_response := "Plant okra.";
         rec_created_at := "2024-06-01T09:30:00.000000" |} ] /\
  chat_history busy_session =
    [ {| msg_role := user; msg_content := "And maize?" |};
      {| msg_role := assistant; msg_content := "Plant okra." |} ] /\
  current_page busy_session = chat.
Proof. vm_compute. repeat split. Qed.


Lemma transcript_contents_nonempty_witness :
  msg_content {| msg_role := assistant; msg_content := "Plant okra." |} <> "".
Proof.
  apply (transcript_contents_nonempty busy_session).
  - apply busy_session_reachable.
  - rewrite (proj1 (proj2 busy_session_contents)). right. left. reflexivity.
Defined.

Lemma requests_of_a_run_witness :
  let w := online_world (Some "Sow it in May.") in
  let t := trace (main w (ChatInput "When?") busy_session) in
  external_calls t = [] \/
  (In (current_page busy_session)
      [crop_planner; soil_optimizer; pest_identifier; chat] /\
   exists prompt, external_calls t = [CompletionRequest (request_for prompt)]) \/
  (current_page busy_session = dashboard /\ weather_data busy_session = None /\
   exists p,
     profile busy_session = Some p /\ PyStr.truthy (location p) = true /\
     external_calls t = trace (fetch_weather w (location p) busy_session)).
Proof.
  apply (requests_of_a_run (online_world (Some "Sow it in May."))
           (ChatInput "When?") busy_session).
  apply busy_session_reachable.
Defined.

(** ** The two static pages *)

(** The Weather Alerts and Cost-Saving Tips pages show fixed text: whatever
    is submitted there, the session is left as it was, the weather snapshot
    is not consulted, and no request is sent to either service. *)
Theorem static_pages_inert (w : world) (ev : event) (s : session) :
  current_page s = weather_alerts \/ current_page s = cost_tips ->
  let o := route w ev s in
  result o = Return tt /\ final o = s /\ external_calls (trace o) = [].
Proof.
  intros Hpage o. subst o. unfold route. run.
  destruct Hpage as [-> | ->].
  - unfold weather_alerts_page. destruct ev; tail; repeat split.
  - unfold cost_tips_page. destruct ev; tail; repeat split.
Qed.

Lemma static_pages_inert_witness :
  let o := route offline_world SubmitWeatherAdvice (sample_session weather_alerts) in
  result o = Return tt /\ final o = sample_session weather_alerts /\
  external_calls (trace o) = [].
Proof.
  apply (static_pages_inert offline_world SubmitWeatherAdvice
           (sample_session weather_alerts)).
  left. reflexivity.
Defined.
